(** * Session and client context providers of the memers front end

    A shallow embedding of [src/providers/AuthProvider.tsx] and of the
    Firebase client provider, together with the properties the specification
    states about them.

    The React component [AuthProvider] owns four state cells ([user],
    [profile], [authLoading], [authErrorMessages]) and two effects.  The
    embedding keeps the four cells in a record, runs the state setters in
    place, and runs the profile effect when the value of [user] differs from
    the one the effect last ran with (its dependency array is
    [[user, setProfile, myFS]], of which only [user] ever changes).  The
    remote calls of [login], [logout] and [register] are calls to an abstract
    backend.

    React applies the state updates of a batch at its next render and runs
    the effect after that render.  No setter of the component is given a
    function and no handler reads a cell, so the cells with the queued
    updates applied ([Session], the record the setters act on) determine
    what the next render shows; the states React has rendered and published
    are kept beside it ([commitFrames], the [frames] of a [Machine]).  [step]
    and [run] give the session once React has settled; the frames give every
    state on the way, among them the render between a change of [user] and
    the effect that answers it.  At an [await] the promise may settle after
    React has rendered the queued updates, or before ([Timing]).  Handlers
    and operations do not interleave. *)

From stdpp Require Import base option list strings gmap.

Open Scope string_scope.
Open Scope list_scope.

(** ** Values *)

(** A TypeScript value of type [T | null] that the code may also set to
    [undefined] (as [setProfile(profileData!)] does). *)
Inductive nullable (A : Type) : Type :=
  | JsNull
  | JsUndefined
  | JsVal (a : A).
Arguments JsNull {A}.
Arguments JsUndefined {A}.
Arguments JsVal {A} a.

(** The specification's "none" covers both [null] and [undefined]. *)
Definition present {A} (x : nullable A) : option A :=
  match x with
  | JsVal a => Some a
  | JsNull | JsUndefined => None
  end.

(** Field values of a Firestore document, as far as the providers build or
    receive them.  [FServerTimestamp] is the sentinel returned by
    [serverTimestamp()]; the server replaces it by a [FTimestamp]. *)
Inductive FieldValue : Type :=
  | FString (s : string)
  | FServerTimestamp
  | FTimestamp (t : Z).

Global Instance FieldValue_eq_dec : EqDecision FieldValue :=
  ltac:(solve_decision).

(** [DocumentData]: a mapping of field names to values. *)
Abbreviation DocumentData := (gmap string FieldValue).

(** The part of Firebase's [User] the providers read. *)
Record User : Type := mkUser {
  uid : string;
  email : string;
}.

Global Instance User_eq_dec : EqDecision User :=
  ltac:(solve_decision).

(** [userCredential.user] is a [User] in Firebase's types. *)
Record UserCredential : Type := mkCredential {
  cred_user : User;
}.

(** A thrown value [ex], seen through the three expressions the handlers
    evaluate on it: [ex.message],
    [Object.hasOwnProperty.call(ex, 'message')] and [JSON.stringify(ex)]. *)
Record JsError : Type := mkError {
  message : string;
  hasOwnMessage : bool;
  stringify : string;
}.

(** [new Error(msg)]: the message is an own property, and no property is
    enumerable, so that the object serialises to an empty object. *)
Definition ErrorObject (msg : string) : JsError :=
  {| message := msg; hasOwnMessage := true; stringify := "{}" |}.

(** ** Session state *)

(** The four [useState] cells of [AuthProvider], and what React keeps for the
    profile effect: the [user] it last ran with and the clean-up function it
    returned (the [unsubscribe] of the listener opened by [onSnapshot], named
    here by the path of the watched document). *)
Record Session : Type := mkSession {
  user : option User;
  profile : nullable DocumentData;
  authLoading : bool;
  authErrorMessages : option (list string);
  effectUser : option User;
  docListener : option string;
}.

(** The specification's view of [authErrorMessages]: an ordered sequence of
    strings, empty when the cell holds [undefined]. *)
Definition errorMessages (s : Session) : list string :=
  default [] (authErrorMessages s).

Definition setUser (u : option User) (s : Session) : Session :=
  mkSession u (profile s) (authLoading s) (authErrorMessages s)
            (effectUser s) (docListener s).

Definition setProfile (p : nullable DocumentData) (s : Session) : Session :=
  mkSession (user s) p (authLoading s) (authErrorMessages s)
            (effectUser s) (docListener s).

Definition setAuthLoading (b : bool) (s : Session) : Session :=
  mkSession (user s) (profile s) b (authErrorMessages s)
            (effectUser s) (docListener s).

Definition setAuthErrorMessages (e : option (list string)) (s : Session)
  : Session :=
  mkSession (user s) (profile s) (authLoading s) e
            (effectUser s) (docListener s).

Definition setEffectUser (u : option User) (s : Session) : Session :=
  mkSession (user s) (profile s) (authLoading s) (authErrorMessages s)
            u (docListener s).

Definition setDocListener (l : option string) (s : Session) : Session :=
  mkSession (user s) (profile s) (authLoading s) (authErrorMessages s)
            (effectUser s) l.

(** State of the component when it has mounted: the initial values of the
    cells; the profile effect has run once with [user = null], which writes
    the values the cells already hold. *)
Definition mounted : Session :=
  {| user := None; profile := JsNull; authLoading := true;
     authErrorMessages := None; effectUser := None; docListener := None |}.

(** ** The two effects *)

Definition PROFILE_COLLECTION : string := "users".

(** [doc(myFS, PROFILE_COLLECTION, uid).path] *)
Definition docPath (collection id : string) : string :=
  collection +:+ "/" +:+ id.

(** Callback of [onAuthStateChanged]. *)
Definition onAuthStateChanged (u : option User) (s : Session) : Session :=
  setAuthLoading false (setUser u s).

Definition noProfileMessage (path : string) : string :=
  "No profile doc found in Firestore at: " +:+ path.

(** First callback of [onSnapshot]; [data] is [docSnap.data()], [undefined]
    when the document does not exist. *)
Definition onSnapshotNext (path : string) (data : option DocumentData)
    (s : Session) : Session :=
  let s1 :=
    match data with
    | None => setAuthErrorMessages (Some [noProfileMessage path]) s
    | Some _ => s
    end in
  setProfile (match data with Some d => JsVal d | None => JsUndefined end) s1.

(** Second callback of [onSnapshot]. *)
Definition onSnapshotError (firestoreErr : JsError) (s : Session) : Session :=
  setAuthErrorMessages
    (Some [message firestoreErr;
           "Have you initialized your Firestore database?"]) s.

(** Body of the profile effect, preceded by the clean-up of its previous run
    (which closes the listener that run had opened, if any). *)
Definition profileEffect (s : Session) : Session :=
  let s0 := setEffectUser (user s) (setDocListener None s) in
  match user s0 with
  | Some u =>
      if decide (uid u = "") then s0
      else setDocListener (Some (docPath PROFILE_COLLECTION (uid u))) s0
  | None =>
      setAuthErrorMessages None (setProfile JsNull (setAuthLoading true s0))
  end.

(** React's commit after a batch of state updates: the effect runs when its
    dependency [user] has changed.  The updates the effect makes itself do
    not change [user], so one run settles the state.  React compares the
    dependency with [Object.is]; a [User] object is taken to be its fields
    here, and a run of the effect for a new object with the same fields
    would close and open a listener on the same path. *)
Definition commit (s : Session) : Session :=
  if decide (effectUser s = user s) then s else profileEffect s.

(** The states React renders in a commit, in order: the cells with the
    queued updates applied and, when the effect has run, the cells as the
    effect's own updates leave them.  Each of them is what [AuthProvider]
    publishes at that render.  (A render that changes nothing is listed
    too.) *)
Definition commitFrames (s : Session) : list Session :=
  if decide (effectUser s = user s) then [s] else [s; profileEffect s].

(** ** Events of the two streams *)

Inductive Event : Type :=
  | AuthStateChanged (u : option User)
  | DocSnapshot (data : option DocumentData)
  | DocError (err : JsError).

(** A document event reaches the component only through an open listener. *)
Definition handle (e : Event) (s : Session) : Session :=
  match e with
  | AuthStateChanged u => onAuthStateChanged u s
  | DocSnapshot data =>
      match docListener s with
      | Some path => onSnapshotNext path data s
      | None => s
      end
  | DocError err =>
      match docListener s with
      | Some _ => onSnapshotError err s
      | None => s
      end
  end.

(** The session once React has settled after an event: the handler's
    updates, the render, the effect if [user] has changed, and the render of
    the effect's updates. *)
Definition step (s : Session) (e : Event) : Session := commit (handle e s).

(** The states rendered on the way. *)
Definition stepFrames (s : Session) (e : Event) : list Session :=
  commitFrames (handle e s).

Definition runEvents (s : Session) (evs : list Event) : Session :=
  foldl step s evs.

(** ** The backend and the three operations *)

(** The remote calls the operations make. *)
Inductive Call : Type :=
  | CreateUserWithEmailAndPassword (email password : string)
  | SignInWithEmailAndPassword (email password : string)
  | SignOut
  | SetDoc (path : string) (data : DocumentData).

(** The identity service and the document store, as functions on a backend
    state [W].  A rejected promise is the left summand.  The path stands for
    the document reference [doc(myFS, collection, id)]. *)
Record Backend (W : Type) : Type := mkBackend {
  createUserWithEmailAndPassword :
    string -> string -> W -> (JsError + UserCredential) * W;
  signInWithEmailAndPassword :
    string -> string -> W -> (JsError + UserCredential) * W;
  signOut : W -> (JsError + unit) * W;
  setDoc : string -> DocumentData -> W -> (JsError + unit) * W;
}.
Arguments createUserWithEmailAndPassword {W}.
Arguments signInWithEmailAndPassword {W}.
Arguments signOut {W}.
Arguments setDoc {W}.

(** The component at the moment a remote call is made: the cells as React
    last rendered them, and the cells as the updates queued since will leave
    them at the next render. *)
Record AtCall : Type := mkAtCall {
  shown : Session;
  queued : Session;
}.

(** What an operation runs on: the session (the cells with every update made
    so far applied), the backend, the remote calls made so far, and the
    states React has rendered so far, oldest first. *)
Record Machine (W : Type) : Type := mkMachine {
  session : Session;
  world : W;
  calls : list (Call * AtCall);
  frames : list Session;
}.
Arguments mkMachine {W}.
Arguments session {W}.
Arguments world {W}.
Arguments calls {W}.
Arguments frames {W}.

(** The cells as React last rendered them. *)
Definition lastFrame {W} (m : Machine W) : Session :=
  default mounted (last (frames m)).

Definition Async (W A : Type) : Type := Machine W -> A * Machine W.

Definition ret {W A} (a : A) : Async W A := fun m => (a, m).

Definition bind {W A B} (c : Async W A) (k : A -> Async W B) : Async W B :=
  fun m => let '(a, m1) := c m in k a m1.

Declare Scope async_scope.
Delimit Scope async_scope with async.
Bind Scope async_scope with Async.
Notation "'let!' x := c 'in' k" := (bind c (fun x => k))
  (at level 10, x name, c at level 100, k at level 200) : async_scope.
Notation "c >> k" := (bind c (fun _ => k))
  (at level 100, k at level 200, right associativity) : async_scope.
Open Scope async_scope.

(** A state setter called from an operation: the update is queued, nothing
    is rendered. *)
Definition update {W} (f : Session -> Session) : Async W unit :=
  fun m => (tt, mkMachine (f (session m)) (world m) (calls m) (frames m)).

(** React renders the queued updates and runs the effect. *)
Definition flush {W} : Async W unit :=
  fun m =>
    (tt, mkMachine (commit (session m)) (world m) (calls m)
                   (frames m ++ commitFrames (session m))).

(** When the promise of a remote call settles: after React has rendered the
    updates queued before the call (a call that takes a round trip), or
    before it has (a promise that settles at once). *)
Inductive Timing : Type :=
  | RendersFirst
  | SettlesFirst.

(** [await remote(...)]: the call is made, React renders or not while the
    promise is pending, and the operation resumes with the outcome. *)
Definition awaitAt {W A} (t : Timing) (c : Call)
    (remote : W -> (JsError + A) * W) : Async W (JsError + A) :=
  fun m =>
    let '(r, w) := remote (world m) in
    let made := calls m ++ [(c, mkAtCall (lastFrame m) (session m))] in
    match t with
    | RendersFirst =>
        (r, mkMachine (commit (session m)) w made
                      (frames m ++ commitFrames (session m)))
    | SettlesFirst => (r, mkMachine (session m) w made (frames m))
    end.

(** A whole operation: its body, then the render of its last updates. *)
Definition run {W A} (op : Async W A) (m : Machine W) : A * Machine W :=
  (let! r := op in flush >> ret r) m.


(** [Object.hasOwnProperty.call(ex, 'message') ? ex.message
      : JSON.stringify(ex)] *)
Definition errorText (ex : JsError) : string :=
  if hasOwnMessage ex then message ex else stringify ex.

Section Operations.
Context {W : Type} (fb : Backend W).

Definition userDocData (u : User) (email displayName : string)
  : DocumentData :=
  <["uid" := FString (uid u)]>
    (<["email" := FString email]>
      (<["displayName" := FString displayName]>
        (<["dateCreated" := FServerTimestamp]> ∅))).

(** [displayName] is the optional third parameter, [''] by default; [t1]
    and [t2] are the timings of the two promises. *)
Definition registerFunctionAt (t1 t2 : Timing) (email password : string)
    (displayName : option string) : Async W bool :=
  let displayName := default "" displayName in
  let! r := awaitAt t1 (CreateUserWithEmailAndPassword email password)
         (createUserWithEmailAndPassword fb email password) in
  match r with
  | inl ex =>
      update (setAuthErrorMessages
                (Some [message ex;
                       "Did you enable the Email Provider in Firebase Auth?"])) >>
      ret false
  | inr userCredential =>
      let user := cred_user userCredential in
      let userDocRef := docPath "users" (uid user) in
      let userDocData := userDocData user email displayName in
      let! r := awaitAt t2 (SetDoc userDocRef userDocData)
             (setDoc fb userDocRef userDocData) in
      match r with
      | inr _ => ret true
      | inl ex =>
          update (setAuthErrorMessages
                    (Some [message ex;
                           "Did you enable the Firestore Database in your Firebase project?"])) >>
          ret false
      end
  end.

(** The operation with both calls taking a round trip. *)
Definition registerFunction (email password : string)
    (displayName : option string) : Async W bool :=
  registerFunctionAt RendersFirst RendersFirst email password displayName.

(** The two [console] messages about the signed-in user are left out, here
    as in the other operations. *)
Definition loginFunctionAt (t : Timing) (email password : string)
  : Async W bool :=
  let! r := awaitAt t (SignInWithEmailAndPassword email password)
         (signInWithEmailAndPassword fb email password) in
  match r with
  | inr userCredential =>
      let user := cred_user userCredential in
      update (setUser (Some user)) >>
      ret true
  | inl ex =>
      let msg := errorText ex in
      update (setAuthErrorMessages (Some [msg])) >>
      ret false
  end.

Definition loginFunction (email password : string) : Async W bool :=
  loginFunctionAt RendersFirst email password.

Definition logoutFunctionAt (t : Timing) : Async W bool :=
  update (setUser None) >>
  let! r := awaitAt t SignOut (signOut fb) in
  match r with
  | inr _ => ret true
  | inl ex =>
      let msg := errorText ex in
      update (setAuthErrorMessages (Some [msg])) >>
      ret false
  end.

Definition logoutFunction : Async W bool :=
  logoutFunctionAt RendersFirst.

(** Everything that can happen to a mounted session.  Only logout has an
    update queued when it awaits, so that only for logout the timing makes a
    difference to the session ([LogoutRaced]: the sign-out settles before
    React has rendered). *)
Inductive Action : Type :=
  | Deliver (e : Event)
  | Login (email password : string)
  | Logout
  | Register (email password : string) (displayName : option string)
  | LogoutRaced.

Definition act (m : Machine W) (a : Action) : Machine W :=
  match a with
  | Deliver e =>
      mkMachine (step (session m) e) (world m) (calls m)
                (frames m ++ stepFrames (session m) e)
  | Login email password => snd (run (loginFunction email password) m)
  | Logout => snd (run logoutFunction m)
  | Register email password displayName =>
      snd (run (registerFunction email password displayName) m)
  | LogoutRaced => snd (run (logoutFunctionAt SettlesFirst) m)
  end.

Definition runActions (m : Machine W) (acts : list Action) : Machine W :=
  foldl act m acts.

(** The component as mounted: one render, of the initial cells. *)
Definition boot (w : W) : Machine W := mkMachine mounted w [] [mounted].
End Operations.

(** ** The session context and its hook *)

(** The data fields of [theValues], the value [AuthProvider] publishes (the
    three operations are the functions above). *)
Record AuthContextValues : Type := mkValues {
  ctxAuthErrorMessages : option (list string);
  ctxAuthLoading : bool;
  ctxProfile : nullable DocumentData;
  ctxUser : option User;
}.

(** What a context can hold: [undefined], the empty object literal, or a
    published value. *)
Inductive ContextValue : Type :=
  | CtxUndefined
  | CtxEmptyObject
  | CtxValues (v : AuthContextValues).

(** [createContext(defaultValue)]: a context is known by its default. *)
Record Context : Type := createContext { defaultValue : ContextValue }.

(** [createContext<AuthContextValues>({} as AuthContextValues)] *)
Definition AuthContext : Context := createContext CtxEmptyObject.

(** [useContext]: the value of the nearest enclosing provider of the context
    ([enclosing] lists the values of the enclosing providers, innermost
    first), and the context's default when there is none. *)
Definition useContext (c : Context) (enclosing : list ContextValue)
  : ContextValue :=
  match enclosing with
  | v :: _ => v
  | [] => defaultValue c
  end.

(** The hook: the left summand is the thrown [Error]'s message. *)
Definition useAuthContext (enclosing : list ContextValue)
  : string + ContextValue :=
  let context := useContext AuthContext enclosing in
  match context with
  | CtxUndefined => inl "useAuthContext was used outside of its Provider"
  | _ => inr context
  end.

(** What [AuthProvider] renders: nothing while [authLoading], otherwise a
    provider of [theValues] around its children. *)
Definition AuthProvider (s : Session) : option ContextValue :=
  if authLoading s then None
  else Some (CtxValues (mkValues (authErrorMessages s) (authLoading s)
                                 (profile s) (user s))).

(** ** The client context *)

(** A value in [FirebaseConfig.json]: a string or [null]. *)
Inductive JsonValue : Type :=
  | JsonNull
  | JsonString (s : string).

(** [FirebaseConfig.json]: an object, which has a key or has not. *)
Record FirebaseConfig : Type := mkConfig {
  fields : gmap string JsonValue;
}.

(** [myFirebaseConfig?.projectId]: [undefined] for a key that is absent and
    [null] for a key that holds it are both [None], as both are falsy. *)
Definition projectId (cfg : FirebaseConfig) : option string :=
  match fields cfg !! "projectId" with
  | Some (JsonString id) => Some id
  | Some JsonNull | None => None
  end.

(** The handles, named by the calls of the client library that return
    them.  Whether a call returns is the library's ([ClientLibrary]). *)
Inductive Handle : Type :=
  | initializeApp (cfg : FirebaseConfig)
  | getFirestore (app : Handle)
  | getAuth (app : Handle).

Record FirebaseContextValues : Type := mkHandles {
  myApp : Handle;
  myAuth : Handle;
  myFS : Handle;
}.

(** [String.prototype.includes] *)
Fixpoint includes (s searchString : string) : bool :=
  if String.prefix searchString s then true
  else match s with
       | EmptyString => false
       | String _ rest => includes rest searchString
       end.

Definition PLACEHOLDER_PROJECT : string := "memers-29baa".

(** [!myFirebaseConfig?.projectId ||
     myFirebaseConfig.projectId.includes('memers-29baa')] *)
Definition invalidConfiguration (cfg : FirebaseConfig) : bool :=
  match projectId cfg with
  | None => true
  | Some id =>
      if decide (id = "") then true else includes id PLACEHOLDER_PROJECT
  end.

(** One render of [FirebaseProvider]: what it writes with [console.error]
    and what it returns ([None] for [null]). *)
Record Rendered : Type := mkRendered {
  diagnostics : list string;
  output : option FirebaseContextValues;
}.

Definition FirebaseProvider (cfg : FirebaseConfig)
    (firebaseInitializing : bool) : Rendered :=
  let myApp := initializeApp cfg in
  let myFS := getFirestore myApp in
  let myAuth := getAuth myApp in
  {| diagnostics :=
       if invalidConfiguration cfg
       then ["Invalid Firebase configuration in src/providers/FirebaseConfig.json"]
       else [];
     output :=
       if firebaseInitializing then None
       else Some (mkHandles myApp myAuth myFS) |}.

(** Mounting the provider: the first render with the initial state [true],
    the effect [setFirebaseInitializing(false)], and the render it causes. *)
Definition mountFirebaseProvider (cfg : FirebaseConfig) : list Rendered :=
  let firebaseInitializing := true in
  let first := FirebaseProvider cfg firebaseInitializing in
  let firebaseInitializing := false in
  [first; FirebaseProvider cfg firebaseInitializing].

(** The client library, as far as the module depends on it: for each of
    the three calls at the top of the module, the error it throws, if it
    throws. *)
Record ClientLibrary : Type := mkLibrary {
  initializeAppThrows : FirebaseConfig -> option string;
  getFirestoreThrows : Handle -> option string;
  getAuthThrows : Handle -> option string;
}.

(** Loading the module of the provider: the three constants [myApp], [myFS]
    and [myAuth] are made in this order, before any component is rendered;
    an error thrown by one of the calls is not caught, and then the module,
    and [FirebaseProvider] with it, does not exist. *)
Definition importModule (lib : ClientLibrary) (cfg : FirebaseConfig)
  : string + FirebaseContextValues :=
  let myApp := initializeApp cfg in
  match initializeAppThrows lib cfg with
  | Some thrown => inl thrown
  | None =>
      let myFS := getFirestore myApp in
      match getFirestoreThrows lib myApp with
      | Some thrown => inl thrown
      | None =>
          let myAuth := getAuth myApp in
          match getAuthThrows lib myApp with
          | Some thrown => inl thrown
          | None => inr (mkHandles myApp myAuth myFS)
          end
      end
  end.

(** Loading the module and mounting the provider: the renders of the
    provider, if there are any. *)
Definition startClient (lib : ClientLibrary) (cfg : FirebaseConfig)
  : string + list Rendered :=
  match importModule lib cfg with
  | inl thrown => inl thrown
  | inr _ => inr (mountFirebaseProvider cfg)
  end.

(** ** The Firebase client library *)

Module Sdk.
(** The options an app handle was made with. *)
Definition options (app : Handle) : option FirebaseConfig :=
  match app with
  | initializeApp cfg => Some cfg
  | getFirestore _ | getAuth _ => None
  end.

(** [getFirestore] refuses an app whose options have no own property
    [projectId] (the library's message, without its quotation marks). *)
Definition firestoreError (app : Handle) : option string :=
  match options app with
  | Some cfg =>
      match fields cfg !! "projectId" with
      | Some _ => None
      | None => Some "projectId not provided in firebase.initializeApp."
      end
  | None => None
  end.

(** [getAuth] refuses an app whose [apiKey] is falsy or contains a colon. *)
Definition authError (app : Handle) : option string :=
  match options app with
  | Some cfg =>
      match fields cfg !! "apiKey" with
      | Some (JsonString key) =>
          if decide (key = "") then
            Some "Firebase: Error (auth/invalid-api-key)."
          else if includes key ":" then
            Some "Firebase: Error (auth/invalid-api-key)."
          else None
      | Some JsonNull | None =>
          Some "Firebase: Error (auth/invalid-api-key)."
      end
  | None => None
  end.

(** [initializeApp] takes any options object. *)
Definition library : ClientLibrary :=
  {| initializeAppThrows := fun _ => None;
     getFirestoreThrows := firestoreError;
     getAuthThrows := authError |}.
End Sdk.

(** ** A backend to run the operations against *)

Module Mock.
Record Firebase : Type := mkFirebase {
  accounts : gmap string (string * User);
  documents : gmap string DocumentData;
  firestoreEnabled : bool;
  signOutFailure : option JsError;
  now : Z;
}.

Definition resolve (t : Z) (v : FieldValue) : FieldValue :=
  match v with
  | FServerTimestamp => FTimestamp t
  | _ => v
  end.

Definition createUser (email password : string) (w : Firebase)
  : (JsError + UserCredential) * Firebase :=
  match accounts w !! email with
  | Some _ =>
      (inl (ErrorObject "Firebase: Error (auth/email-already-in-use)."), w)
  | None =>
      let u := mkUser ("uid-" +:+ email) email in
      (inr (mkCredential u),
       mkFirebase (<[email := (password, u)]> (accounts w)) (documents w)
                  (firestoreEnabled w) (signOutFailure w) (now w))
  end.

Definition signIn (email password : string) (w : Firebase)
  : (JsError + UserCredential) * Firebase :=
  match accounts w !! email with
  | Some (p, u) =>
      if decide (p = password) then (inr (mkCredential u), w)
      else (inl (ErrorObject "invalid password"), w)
  | None => (inl (ErrorObject "Firebase: Error (auth/user-not-found)."), w)
  end.

Definition signOff (w : Firebase) : (JsError + unit) * Firebase :=
  match signOutFailure w with
  | Some ex => (inl ex, w)
  | None => (inr tt, w)
  end.

Definition put (path : string) (data : DocumentData) (w : Firebase)
  : (JsError + unit) * Firebase :=
  if firestoreEnabled w
  then (inr tt,
        mkFirebase (accounts w)
                   (<[path := resolve (now w) <$> data]> (documents w))
                   (firestoreEnabled w) (signOutFailure w) (now w))
  else (inl (ErrorObject "Missing or insufficient permissions."), w).

Definition backend : Backend Firebase :=
  mkBackend Firebase createUser signIn signOff put.

Definition alice : User := mkUser "u1" "a@x.com".

Definition fresh : Firebase :=
  {| accounts := {[ "a@x.com" := ("secret", alice) ]};
     documents := {[ "users/u1" := {[ "displayName" := FString "Carl" ]} ]};
     firestoreEnabled := true;
     signOutFailure := None;
     now := 1700000000 |}.

(** The same backend with the document store not provisioned. *)
Definition unprovisioned : Firebase :=
  mkFirebase (accounts fresh) ∅ false (signOutFailure fresh) (now fresh).

(** The same backend with a sign-out that fails. *)
Definition offline : Firebase :=
  mkFirebase (accounts fresh) (documents fresh) true
             (Some (mkError "network-request-failed" false "{}")) (now fresh).
End Mock.

(** ** Notions used in the statements *)

(** The hints the handlers add after the message of a failure. *)
Definition IDENTITY_HINT : string :=
  "Did you enable the Email Provider in Firebase Auth?".
Definition STORE_HINT : string :=
  "Did you enable the Firestore Database in your Firebase project?".
Definition LISTENER_HINT : string :=
  "Have you initialized your Firestore database?".

(** The listener the profile effect leaves open for a given [user]. *)
Definition listenerFor (u : option User) : option string :=
  match u with
  | Some u =>
      if decide (uid u = "") then None
      else Some (docPath PROFILE_COLLECTION (uid u))
  | None => None
  end.

(** Between two transitions the effect has run with the current [user], its
    listener watches that user's document, and without a user there is no
    profile. *)
Record Settled (s : Session) : Prop := mkSettled {
  settled_effect : effectUser s = user s;
  settled_listener : docListener s = listenerFor (user s);
  settled_profile : user s = None -> profile s = JsNull;
}.

(** What the handlers leave before the commit: the invariant may only fail
    where the effect is about to run. *)
Definition Pending (s : Session) : Prop :=
  effectUser s = user s -> Settled s.

(** Whether the session holds an identity. *)
Definition signedIn (s : Session) : bool :=
  match user s with
  | Some _ => true
  | None => false
  end.

(** Between two transitions of a run that only delivers stream events, a
    session without a user has no recorded error either. *)
Definition Clean (s : Session) : Prop :=
  user s = None -> authErrorMessages s = None.

(** The open listener delivers the document it watches as the store holds
    it: [docSnap.data()] is the document's fields, or [undefined] when the
    store has no document at the path. *)
Definition snapshotFrom (store : gmap string DocumentData) (s : Session)
  : Session :=
  match docListener s with
  | Some path => step s (DocSnapshot (store !! path))
  | None => s
  end.

(** What every state has, rendered or queued, settled or not: the open
    listener is the one for the identity the profile effect last ran with,
    and there is no profile if it last ran with none. *)
Record Coherent (s : Session) : Prop := mkCoherent {
  coherent_listener : docListener s = listenerFor (effectUser s);
  coherent_profile : effectUser s = None -> profile s = JsNull;
}.

(** A machine all of whose states are coherent, and an operation that keeps
    it so. *)
Definition Good {W} (m : Machine W) : Prop :=
  Coherent (session m) /\ Forall Coherent (frames m).

Definition Keeps {W A} (op : Async W A) : Prop :=
  forall m, Good m -> Good (op m).2.

(** The session an operation resumes with after an [await], and the states
    rendered while it awaited. *)
Definition awaited (t : Timing) (s : Session) : Session :=
  match t with
  | RendersFirst => commit s
  | SettlesFirst => s
  end.

Definition awaitFrames (t : Timing) (s : Session) : list Session :=
  match t with
  | RendersFirst => commitFrames s
  | SettlesFirst => []
  end.



(** ** The client context hook and the wiring of the session component *)

(** What the client context can hold: [undefined], the empty object literal,
    or the handles [FirebaseProvider] publishes. *)
Inductive FirebaseContextValue : Type :=
  | FbUndefined
  | FbEmptyObject
  | FbValues (v : FirebaseContextValues).

(** [createContext({})]: the context, known by its default value. *)
Definition FirebaseContext : FirebaseContextValue := FbEmptyObject.

(** The hook of the client context; [enclosing] lists the values of the
    enclosing providers, innermost first, and the left summand is the thrown
    [Error]'s message. *)
Definition useFirebaseContext (enclosing : list FirebaseContextValue)
  : string + FirebaseContextValue :=
  let context :=
    match enclosing with
    | v :: _ => v
    | [] => FirebaseContext
    end in
  match context with
  | FbUndefined => inl "useFirebaseContext was used outside of its Provider"
  | _ => inr context
  end.

(** The provider a render of [FirebaseProvider] puts around its children;
    none when it returns [null], and then the children are not rendered. *)
Definition published (r : Rendered) : option FirebaseContextValue :=
  FbValues <$> output r.

(** [const { myAuth, myFS }: any = useFirebaseContext()]: a property the
    object does not have reads as [undefined]. *)
Definition clientHandles (ctx : FirebaseContextValue)
  : option Handle * option Handle :=
  match ctx with
  | FbValues v => (Some (myAuth v), Some (myFS v))
  | FbEmptyObject | FbUndefined => (None, None)
  end.

(** What mounting [AuthProvider] sets up: the handle its
    [onAuthStateChanged] listener is registered on, if the auth effect has
    registered one, and the store handle its document listeners use. *)
Record Wiring : Type := mkWiring {
  authListener : option Handle;
  firestore : option Handle;
}.

(** The first render of [AuthProvider] and its auth effect:
    [if (myAuth) { ... onAuthStateChanged(myAuth, ...) ... }]. *)
Definition mountAuthProvider (enclosing : list FirebaseContextValue)
  : string + Wiring :=
  match useFirebaseContext enclosing with
  | inl thrown => inl thrown
  | inr ctx =>
      let '(myAuth, myFS) := clientHandles ctx in
      inr {| authListener :=
               match myAuth with
               | Some auth => Some auth
               | None => None
               end;
             firestore := myFS |}
  end.

Definition isAuthEvent (e : Event) : bool :=
  match e with
  | AuthStateChanged _ => true
  | DocSnapshot _ | DocError _ => false
  end.

(** An identity event reaches the component only through the listener the
    auth effect has registered. *)
Definition stepWired (wr : Wiring) (s : Session) (e : Event) : Session :=
  match authListener wr with
  | None => if isAuthEvent e then s else step s e
  | Some _ => step s e
  end.

Definition runWired (wr : Wiring) (s : Session) (evs : list Event)
  : Session :=
  foldl (stepWired wr) s evs.

(** The state the profile effect leaves when it runs without a user. *)
Definition signedOut : Session :=
  mkSession None JsNull true None None None.

(** * Properties *)

(** ** The commit and the profile effect *)

Arguments commit : simpl never.

Lemma commit_user s : user (commit s) = user s.
Proof.
  unfold commit, profileEffect. case_decide; [done|].
  destruct s as [[u|] p l e eu dl]; simpl; [case_decide|]; done.
Qed.

Lemma commit_effectUser s : effectUser (commit s) = user s.
Proof.
  unfold commit, profileEffect. case_decide; [done|].
  destruct s as [[u|] p l e eu dl]; simpl; [case_decide|]; done.
Qed.

Lemma commit_settled s : effectUser s = user s -> commit s = s.
Proof. intros H. unfold commit. by rewrite decide_True. Qed.

Lemma commit_commit s : commit (commit s) = commit s.
Proof. apply commit_settled. by rewrite commit_effectUser, commit_user. Qed.

(** An update of the error list between two commits is not undone by the
    second one. *)
Lemma commit_setAuthErrorMessages e s :
  commit (setAuthErrorMessages e (commit s))
  = setAuthErrorMessages e (commit s).
Proof.
  apply commit_settled. simpl. by rewrite commit_effectUser, commit_user.
Qed.

(** ** The invariant of the session *)

Lemma commit_Settled s : Pending s -> Settled (commit s).
Proof.
  intros H. unfold commit. case_decide as Hu; [by apply H|].
  unfold profileEffect.
  destruct s as [[u|] p l e eu dl]; simpl; [case_decide|];
    split; simpl; try done; by case_decide.
Qed.

Lemma mounted_Settled : Settled mounted.
Proof. by split. Qed.

Lemma Settled_Pending s : Settled s -> Pending s.
Proof. by intros H _. Qed.

Lemma setUser_Pending u s : Settled s -> Pending (setUser u s).
Proof.
  intros [He Hl Hp] H. destruct s; simpl in *; subst; by split.
Qed.

Lemma setAuthLoading_Pending b s : Pending s -> Pending (setAuthLoading b s).
Proof. intros H Hu. destruct (H Hu). by split. Qed.

Lemma setAuthErrorMessages_Pending e s :
  Pending s -> Pending (setAuthErrorMessages e s).
Proof. intros H Hu. destruct (H Hu). by split. Qed.

Lemma setAuthErrorMessages_Settled e s :
  Settled s -> Settled (setAuthErrorMessages e s).
Proof. intros []. by split. Qed.

Lemma handle_Pending e s : Settled s -> Pending (handle e s).
Proof.
  intros Hs. destruct e as [u|data|err]; simpl.
  - by apply setAuthLoading_Pending, setUser_Pending.
  - destruct (docListener s) as [path|] eqn:Hl; [|by apply Settled_Pending].
    destruct Hs as [He Hl' Hp]. intros _. unfold onSnapshotNext.
    split; simpl; destruct data; simpl; try done.
    all: intros Hn; rewrite Hn in Hl'; simpl in Hl'; congruence.
  - destruct (docListener s); [|by apply Settled_Pending].
    by apply setAuthErrorMessages_Pending, Settled_Pending.
Qed.

Lemma step_Settled s e : Settled s -> Settled (step s e).
Proof. intros H. by apply commit_Settled, handle_Pending. Qed.

Lemma runEvents_Settled evs s : Settled s -> Settled (runEvents s evs).
Proof.
  revert s. induction evs as [|e evs IH]; intros s H; simpl; [done|].
  by apply IH, step_Settled.
Qed.

(** ** Coherence of every state *)

Lemma Settled_Coherent s : Settled s -> Coherent s.
Proof.
  intros [He Hl Hp]. split; rewrite He; [done|]. exact Hp.
Qed.

Lemma Coherent_Settled s : Coherent s -> effectUser s = user s -> Settled s.
Proof. intros [Hl Hp] He. split; rewrite <- ?He; done. Qed.

Lemma Coherent_Pending s : Coherent s -> Pending s.
Proof. intros H He. by apply Coherent_Settled. Qed.

Lemma setUser_Coherent u s : Coherent s -> Coherent (setUser u s).
Proof. by intros []. Qed.

Lemma setAuthErrorMessages_Coherent e s :
  Coherent s -> Coherent (setAuthErrorMessages e s).
Proof. by intros []. Qed.

Lemma profileEffect_Coherent s : Coherent (profileEffect s).
Proof.
  unfold profileEffect.
  destruct s as [[u|] p l e eu dl]; simpl; [case_decide|];
    split; simpl; try done; by case_decide.
Qed.

Lemma commit_Coherent s : Coherent s -> Coherent (commit s).
Proof.
  intros H. unfold commit. case_decide; [done|apply profileEffect_Coherent].
Qed.

Lemma commitFrames_Coherent s :
  Coherent s -> Forall Coherent (commitFrames s).
Proof.
  intros H. unfold commitFrames. case_decide.
  - by apply Forall_singleton.
  - apply Forall_cons. split; [done|].
    apply Forall_singleton, profileEffect_Coherent.
Qed.

Lemma awaited_Coherent t s : Coherent s -> Coherent (awaited t s).
Proof. destruct t; [apply commit_Coherent|done]. Qed.

Lemma awaitFrames_Coherent t s :
  Coherent s -> Forall Coherent (awaitFrames t s).
Proof. destruct t; [apply commitFrames_Coherent|by constructor]. Qed.

Lemma handle_Coherent e s : Coherent s -> Coherent (handle e s).
Proof.
  intros Hc. destruct e as [u|data|err]; simpl.
  - by destruct Hc.
  - destruct (docListener s) as [path|] eqn:Hd; [|done].
    destruct Hc as [Hl Hp]. unfold onSnapshotNext.
    split; destruct data; simpl; try done;
      intros He; rewrite He, Hd in Hl; done.
  - destruct (docListener s); [|done]. by destruct Hc.
Qed.

Lemma last_commitFrames l s : last (l ++ commitFrames s) = Some (commit s).
Proof.
  unfold commitFrames, commit. case_decide.
  - by rewrite last_snoc.
  - change [s; profileEffect s] with ([s] ++ [profileEffect s]).
    by rewrite app_assoc, last_snoc.
Qed.

(** ** The operations, call by call *)

Section OperationFacts.
Context {W : Type} (fb : Backend W).

Lemma run_loginFunctionAt t email password m :
  run (loginFunctionAt fb t email password) m =
  let before := session m in
  let made := calls m ++ [(SignInWithEmailAndPassword email password,
                           mkAtCall (lastFrame m) before)] in
  let drawn := frames m ++ awaitFrames t before in
  match signInWithEmailAndPassword fb email password (world m) with
  | (inr userCredential, w) =>
      let x := setUser (Some (cred_user userCredential)) (awaited t before) in
      (true, mkMachine (commit x) w made (drawn ++ commitFrames x))
  | (inl ex, w) =>
      let x := setAuthErrorMessages (Some [errorText ex]) (awaited t before) in
      (false, mkMachine (commit x) w made (drawn ++ commitFrames x))
  end.
Proof.
  unfold run, loginFunctionAt, bind, awaitAt, update, flush, ret. simpl.
  destruct (signInWithEmailAndPassword _ _ _ _) as [[ex|cred] w];
    destruct t; simpl; by rewrite ?app_nil_r.
Qed.

Lemma run_logoutFunctionAt t m :
  run (logoutFunctionAt fb t) m =
  let before := setUser None (session m) in
  let made := calls m ++ [(SignOut, mkAtCall (lastFrame m) before)] in
  let drawn := frames m ++ awaitFrames t before in
  match signOut fb (world m) with
  | (inr _, w) =>
      let x := awaited t before in
      (true, mkMachine (commit x) w made (drawn ++ commitFrames x))
  | (inl ex, w) =>
      let x := setAuthErrorMessages (Some [errorText ex]) (awaited t before) in
      (false, mkMachine (commit x) w made (drawn ++ commitFrames x))
  end.
Proof.
  unfold run, logoutFunctionAt, bind, awaitAt, update, flush, ret,
    lastFrame. simpl.
  destruct (signOut _ _) as [[ex|[]] w]; destruct t; simpl;
    by rewrite ?app_nil_r.
Qed.

Lemma run_registerFunctionAt t1 t2 email password displayName m :
  run (registerFunctionAt fb t1 t2 email password displayName) m =
  let before := session m in
  let first := (CreateUserWithEmailAndPassword email password,
                mkAtCall (lastFrame m) before) in
  let resumed := awaited t1 before in
  let drawn := frames m ++ awaitFrames t1 before in
  match createUserWithEmailAndPassword fb email password (world m) with
  | (inl ex, w) =>
      let x := setAuthErrorMessages (Some [message ex; IDENTITY_HINT])
                                    resumed in
      (false, mkMachine (commit x) w (calls m ++ [first])
                        (drawn ++ commitFrames x))
  | (inr userCredential, w) =>
      let u := cred_user userCredential in
      let path := docPath "users" (uid u) in
      let data := userDocData u email (default "" displayName) in
      let second :=
        (SetDoc path data,
         mkAtCall (default mounted (last drawn)) resumed) in
      let made := (calls m ++ [first]) ++ [second] in
      let drawn2 := drawn ++ awaitFrames t2 resumed in
      match setDoc fb path data w with
      | (inr _, w') =>
          let x := awaited t2 resumed in
          (true, mkMachine (commit x) w' made (drawn2 ++ commitFrames x))
      | (inl ex, w') =>
          let x := setAuthErrorMessages (Some [message ex; STORE_HINT])
                                        (awaited t2 resumed) in
          (false, mkMachine (commit x) w' made (drawn2 ++ commitFrames x))
      end
  end.
Proof.
  unfold run, registerFunctionAt, bind, awaitAt, update, flush, ret,
    lastFrame. simpl.
  destruct (createUserWithEmailAndPassword _ _ _ _) as [[ex|cred] w];
    [destruct t1; simpl; by rewrite ?app_nil_r|].
  destruct t1; simpl; rewrite ?app_nil_r;
    destruct (setDoc _ _ _ _) as [[ex|[]] w']; destruct t2; simpl;
    by rewrite ?app_nil_r.
Qed.

Lemma run_loginFunction email password m :
  run (loginFunction fb email password) m =
  let before := session m in
  let made := calls m ++ [(SignInWithEmailAndPassword email password,
                           mkAtCall (lastFrame m) before)] in
  let drawn := frames m ++ commitFrames before in
  match signInWithEmailAndPassword fb email password (world m) with
  | (inr userCredential, w) =>
      let x := setUser (Some (cred_user userCredential)) (commit before) in
      (true, mkMachine (commit x) w made (drawn ++ commitFrames x))
  | (inl ex, w) =>
      let x := setAuthErrorMessages (Some [errorText ex]) (commit before) in
      (false, mkMachine x w made (drawn ++ [x]))
  end.
Proof.
  unfold loginFunction. rewrite run_loginFunctionAt. simpl.
  destruct (signInWithEmailAndPassword _ _ _ _) as [[ex|cred] w]; [|done].
  rewrite commit_setAuthErrorMessages. unfold commitFrames at 2.
  rewrite decide_True; [done|]. simpl.
  by rewrite commit_effectUser, commit_user.
Qed.

Lemma run_logoutFunction m :
  run (logoutFunction fb) m =
  let before := setUser None (session m) in
  let made := calls m ++ [(SignOut, mkAtCall (lastFrame m) before)] in
  let drawn := frames m ++ commitFrames before in
  match signOut fb (world m) with
  | (inr _, w) =>
      (true, mkMachine (commit before) w made (drawn ++ [commit before]))
  | (inl ex, w) =>
      let x := setAuthErrorMessages (Some [errorText ex]) (commit before) in
      (false, mkMachine x w made (drawn ++ [x]))
  end.
Proof.
  unfold logoutFunction. rewrite run_logoutFunctionAt. simpl.
  destruct (signOut _ _) as [[ex|[]] w].
  - rewrite commit_setAuthErrorMessages. unfold commitFrames at 2.
    rewrite decide_True; [done|]. simpl.
    by rewrite commit_effectUser, commit_user.
  - rewrite commit_commit. unfold commitFrames at 2.
    rewrite decide_True; [done|]. by rewrite commit_effectUser, commit_user.
Qed.

Lemma run_registerFunction email password displayName m :
  run (registerFunction fb email password displayName) m =
  let before := session m in
  let first := (CreateUserWithEmailAndPassword email password,
                mkAtCall (lastFrame m) before) in
  let drawn := frames m ++ commitFrames before in
  match createUserWithEmailAndPassword fb email password (world m) with
  | (inl ex, w) =>
      let x := setAuthErrorMessages (Some [message ex; IDENTITY_HINT])
                                    (commit before) in
      (false, mkMachine x w (calls m ++ [first]) (drawn ++ [x]))
  | (inr userCredential, w) =>
      let u := cred_user userCredential in
      let path := docPath "users" (uid u) in
      let data := userDocData u email (default "" displayName) in
      let second :=
        (SetDoc path data, mkAtCall (commit before) (commit before)) in
      let made := (calls m ++ [first]) ++ [second] in
      let drawn2 := drawn ++ [commit before] in
      match setDoc fb path data w with
      | (inr _, w') =>
          (true, mkMachine (commit before) w' made
                           (drawn2 ++ [commit before]))
      | (inl ex, w') =>
          let x := setAuthErrorMessages (Some [message ex; STORE_HINT])
                                        (commit before) in
          (false, mkMachine x w' made (drawn2 ++ [x]))
      end
  end.
Proof.
  assert (Hf : forall s, commitFrames (commit s) = [commit s]).
  { intros s. unfold commitFrames. rewrite decide_True; [done|].
    by rewrite commit_effectUser, commit_user. }
  assert (Hg : forall e s, commitFrames (setAuthErrorMessages e (commit s))
                           = [setAuthErrorMessages e (commit s)]).
  { intros e s. unfold commitFrames. rewrite decide_True; [done|]. simpl.
    by rewrite commit_effectUser, commit_user. }
  unfold registerFunction. rewrite run_registerFunctionAt. simpl.
  destruct (createUserWithEmailAndPassword _ _ _ _) as [[ex|cred] w].
  - by rewrite commit_setAuthErrorMessages, Hg.
  - rewrite last_commitFrames. simpl. rewrite !commit_commit, !Hf.
    destruct (setDoc _ _ _ _) as [[ex|[]] w']; [|done].
    by rewrite commit_setAuthErrorMessages, Hg.
Qed.

Lemma run_Settled {A} (op : Async W A) m :
  (forall m0, Coherent (session m0) -> Coherent (session (op m0).2)) ->
  Coherent (session m) -> Settled (session (run op m).2).
Proof.
  intros Hop Hc. unfold run, bind, flush, ret.
  specialize (Hop m Hc). destruct (op m) as [a m1]. simpl in *.
  apply commit_Settled, Coherent_Pending, Hop.
Qed.

Lemma act_Settled m a : Settled (session m) -> Settled (session (act fb m a)).
Proof.
  intros Hs. pose proof (Settled_Coherent _ Hs) as Hc.
  destruct a as [e|email password| |email password displayName|]; simpl.
  - by apply step_Settled.
  - rewrite run_loginFunction. simpl.
    destruct (signInWithEmailAndPassword _ _ _ _) as [[ex|cred] w]; simpl.
    + by apply setAuthErrorMessages_Settled, commit_Settled, Settled_Pending.
    + by apply commit_Settled, setUser_Pending, commit_Settled,
        Settled_Pending.
  - rewrite run_logoutFunction. simpl.
    destruct (signOut _ _) as [[ex|[]] w]; simpl.
    + by apply setAuthErrorMessages_Settled, commit_Settled, setUser_Pending.
    + by apply commit_Settled, setUser_Pending.
  - rewrite run_registerFunction. simpl.
    destruct (createUserWithEmailAndPassword _ _ _ _) as [[ex|cred] w]; simpl.
    + by apply setAuthErrorMessages_Settled, commit_Settled, Settled_Pending.
    + destruct (setDoc _ _ _ _) as [[ex|[]] w']; simpl.
      * by apply setAuthErrorMessages_Settled, commit_Settled,
          Settled_Pending.
      * by apply commit_Settled, Settled_Pending.
  - rewrite run_logoutFunctionAt. simpl.
    destruct (signOut _ _) as [[ex|[]] w]; simpl.
    + by apply commit_Settled, Coherent_Pending,
        setAuthErrorMessages_Coherent, setUser_Coherent.
    + by apply commit_Settled, setUser_Pending.
Qed.

Lemma runActions_Settled acts m :
  Settled (session m) -> Settled (session (runActions fb m acts)).
Proof.
  revert m. induction acts as [|a acts IH]; intros m H; simpl; [done|].
  by apply IH, act_Settled.
Qed.

Lemma reachable_Settled w acts :
  Settled (session (runActions fb (boot w) acts)).
Proof. apply runActions_Settled, mounted_Settled. Qed.
End OperationFacts.

Lemma runActions_snoc {W} (fb : Backend W) (m : Machine W) acts a :
  runActions fb m (acts ++ [a]) = act fb (runActions fb m acts) a.
Proof. unfold runActions. by rewrite foldl_app. Qed.

(** ** The rendered states *)

Section FrameFacts.
Context {W : Type} (fb : Backend W).

Lemma ret_Keeps {A} (a : A) : Keeps (W := W) (ret a).
Proof. by intros m H. Qed.

Lemma bind_Keeps {A B} (c : Async W A) (k : A -> Async W B) :
  Keeps c -> (forall a, Keeps (k a)) -> Keeps (bind c k).
Proof.
  intros Hc Hk m H. unfold bind. specialize (Hc m H).
  destruct (c m) as [a m1]. by apply Hk.
Qed.

Lemma update_Keeps f :
  (forall s, Coherent s -> Coherent (f s)) -> Keeps (W := W) (update f).
Proof. intros Hf m [Hs Hfr]. split; [by apply Hf|done]. Qed.

Lemma flush_Keeps : Keeps (W := W) flush.
Proof.
  intros m [Hs Hfr]. split; simpl; [by apply commit_Coherent|].
  apply Forall_app. split; [done|by apply commitFrames_Coherent].
Qed.

Lemma awaitAt_Keeps {A} t c (remote : W -> (JsError + A) * W) :
  Keeps (awaitAt t c remote).
Proof.
  intros m [Hs Hfr]. unfold awaitAt. destruct (remote (world m)) as [r w].
  destruct t; split; simpl; try done; [by apply commit_Coherent|].
  apply Forall_app. split; [done|by apply commitFrames_Coherent].
Qed.

Lemma loginFunctionAt_Keeps t email password :
  Keeps (loginFunctionAt fb t email password).
Proof.
  apply bind_Keeps; [apply awaitAt_Keeps|]. intros [ex|cred];
    (apply bind_Keeps; [apply update_Keeps|intros; apply ret_Keeps]).
  - apply setAuthErrorMessages_Coherent.
  - apply setUser_Coherent.
Qed.

Lemma logoutFunctionAt_Keeps t : Keeps (logoutFunctionAt fb t).
Proof.
  apply bind_Keeps; [apply update_Keeps, setUser_Coherent|]. intros _.
  apply bind_Keeps; [apply awaitAt_Keeps|]. intros [ex|[]];
    [|apply ret_Keeps].
  apply bind_Keeps; [apply update_Keeps|intros; apply ret_Keeps].
  apply setAuthErrorMessages_Coherent.
Qed.

Lemma registerFunctionAt_Keeps t1 t2 email password displayName :
  Keeps (registerFunctionAt fb t1 t2 email password displayName).
Proof.
  apply bind_Keeps; [apply awaitAt_Keeps|]. intros [ex|cred].
  - apply bind_Keeps; [apply update_Keeps|intros; apply ret_Keeps].
    apply setAuthErrorMessages_Coherent.
  - apply bind_Keeps; [apply awaitAt_Keeps|]. intros [ex|[]];
      [|apply ret_Keeps].
    apply bind_Keeps; [apply update_Keeps|intros; apply ret_Keeps].
    apply setAuthErrorMessages_Coherent.
Qed.

Lemma run_Keeps {A} (op : Async W A) m :
  Keeps op -> Good m -> Good (run op m).2.
Proof.
  intros Hop H. unfold run.
  apply (bind_Keeps op (fun r => flush >> ret r)); [done| |done].
  intros a. apply bind_Keeps; [apply flush_Keeps|intros; apply ret_Keeps].
Qed.

Lemma run_last {A} (op : Async W A) m :
  last (frames (run op m).2) = Some (session (run op m).2).
Proof.
  unfold run, bind, flush, ret. destruct (op m) as [a m1]. simpl.
  apply last_commitFrames.
Qed.

Lemma act_Good m a : Good m -> Good (act fb m a).
Proof.
  intros H. destruct a as [e|email password| |email password displayName|];
    simpl.
  - destruct H as [Hs Hfr]. split; simpl.
    + by apply commit_Coherent, handle_Coherent.
    + apply Forall_app. split; [done|].
      by apply commitFrames_Coherent, handle_Coherent.
  - by apply run_Keeps; [apply loginFunctionAt_Keeps|].
  - by apply run_Keeps; [apply logoutFunctionAt_Keeps|].
  - by apply run_Keeps; [apply registerFunctionAt_Keeps|].
  - by apply run_Keeps; [apply logoutFunctionAt_Keeps|].
Qed.

Lemma act_last m a : last (frames (act fb m a)) = Some (session (act fb m a)).
Proof.
  destruct a as [e|email password| |email password displayName|]; simpl;
    try apply run_last.
  apply last_commitFrames.
Qed.

Lemma reachable_Good w acts : Good (runActions fb (boot w) acts).
Proof.
  induction acts as [|a acts IH] using rev_ind.
  - split; simpl; [apply Settled_Coherent, mounted_Settled|].
    apply Forall_singleton, Settled_Coherent, mounted_Settled.
  - rewrite runActions_snoc. by apply act_Good.
Qed.

Lemma reachable_last w acts :
  last (frames (runActions fb (boot w) acts))
  = Some (session (runActions fb (boot w) acts)).
Proof.
  destruct acts as [|a acts] using rev_ind; [done|].
  rewrite runActions_snoc. apply act_last.
Qed.

End FrameFacts.

Lemma step_Clean s e : Settled s -> Clean s -> Clean (step s e).
Proof.
  intros [He Hl Hp] Hc. unfold Clean, step. rewrite commit_user.
  destruct e as [u|data|err]; simpl.
  - intros ->. unfold commit, profileEffect.
    destruct s as [[u|] p l err eu dl]; simpl in *; subst; simpl.
    + done.
    + by apply Hc.
  - destruct (docListener s) eqn:Hd; [|by rewrite commit_settled].
    destruct data; simpl; intros Hn; rewrite Hn in Hl; simpl in Hl; congruence.
  - destruct (docListener s) eqn:Hd; [|by rewrite commit_settled].
    simpl. intros Hn. rewrite Hn in Hl. simpl in Hl. congruence.
Qed.

Lemma runEvents_Clean evs s :
  Settled s -> Clean s ->
  Settled (runEvents s evs) /\ Clean (runEvents s evs).
Proof.
  revert s. induction evs as [|e evs IH]; intros s Hs Hc; simpl; [done|].
  apply IH; [by apply step_Settled|by apply step_Clean].
Qed.

Lemma runEvents_snoc s evs e :
  runEvents s (evs ++ [e]) = step (runEvents s evs) e.
Proof. unfold runEvents. by rewrite foldl_app. Qed.

(** ** Identity-stream events *)

(** C6, as stated, fails on the first event of an unauthenticated start: the
    event delivers no identity and the session ends with [authLoading]
    false. *)
Lemma first_event_none_stops_loading :
  let s := runEvents mounted [AuthStateChanged None] in
  ~ (present (profile s) = None /\ errorMessages s = [] /\
     authLoading s = true).
Proof. simpl. by intros (_ & _ & ?). Qed.

(** C6 (amended): after any sequence of stream events that ends with the
    identity stream delivering none, the session has no identity, no profile
    document and no error message; [authLoading] is true when that last
    event took an identity away, and false when there was none before it. *)
Theorem identity_none_resets_session (evs : list Event) :
  let before := runEvents mounted evs in
  let s := runEvents mounted (evs ++ [AuthStateChanged None]) in
  user s = None /\ profile s = JsNull /\ present (profile s) = None /\
  authErrorMessages s = None /\ errorMessages s = [] /\
  authLoading s = signedIn before.
Proof.
  intros before s.
  destruct (runEvents_Clean evs mounted mounted_Settled) as [Hs Hc]; [done|].
  fold before in Hs, Hc.
  assert (Hs' : Settled s /\ Clean s).
  { apply runEvents_Clean; [apply mounted_Settled|done]. }
  destruct Hs' as [Hs' Hc'].
  assert (Hu : user s = None).
  { unfold s. rewrite runEvents_snoc. unfold step. by rewrite commit_user. }
  assert (Hl : authLoading s = signedIn before).
  { unfold s. rewrite runEvents_snoc. fold before.
    destruct Hs as [He _ _]. unfold step, commit, profileEffect, signedIn.
    by destruct before as [[u|] p l err eu dl]; simpl in *; subst. }
  pose proof (settled_profile _ Hs' Hu) as Hp.
  pose proof (Hc' Hu) as Herr.
  unfold errorMessages. rewrite Hp, Herr. done.
Qed.

(** C7: after any sequence of stream events that ends with the identity
    stream delivering an identity (with a non-empty id), loading is over and
    a listener watches [users/<id>]; when the listener then delivers what the
    store holds there, the session has the document's fields as its profile,
    or, if the store holds nothing there, no profile and the message that
    names the path; loading stays over in both cases. *)
Theorem identity_present_settles (evs : list Event) (u : User)
    (store : gmap string DocumentData) :
  uid u <> "" ->
  let path := "users/" +:+ uid u in
  let s := runEvents mounted (evs ++ [AuthStateChanged (Some u)]) in
  let s' := snapshotFrom store s in
  user s = Some u /\ authLoading s = false /\ docListener s = Some path /\
  user s' = Some u /\ authLoading s' = false /\
  match store !! path with
  | Some fields => profile s' = JsVal fields
  | None =>
      present (profile s') = None /\
      authErrorMessages s' =
        Some ["No profile doc found in Firestore at: " +:+ path] /\
      ("No profile doc found in Firestore at: " +:+ path) ∈ errorMessages s'
  end.
Proof.
  intros Hid path s s'.
  assert (Hs : Settled s) by (apply runEvents_Settled, mounted_Settled).
  assert (Hu : user s = Some u).
  { unfold s. rewrite runEvents_snoc. unfold step. by rewrite commit_user. }
  assert (Hl : docListener s = Some path).
  { rewrite (settled_listener _ Hs), Hu. simpl. by rewrite decide_False. }
  assert (Ha : authLoading s = false).
  { unfold s. rewrite runEvents_snoc. unfold step, commit, profileEffect.
    simpl. case_decide; [done|]. simpl. by case_decide. }
  split_and!; try done; unfold s', snapshotFrom; rewrite Hl;
    unfold step; simpl; rewrite Hl.
  - by rewrite commit_user; destruct (store !! path).
  - rewrite commit_settled; destruct (store !! path); simpl;
      try done; by destruct Hs.
  - rewrite commit_settled; destruct (store !! path); simpl;
      try done; [|by destruct Hs|by destruct Hs].
    unfold errorMessages. simpl. split_and!; try done. by left.
Qed.

Lemma identity_present_settles_witness :
  uid Mock.alice <> "" /\
  let s := snapshotFrom (Mock.documents Mock.fresh)
             (runEvents mounted [AuthStateChanged (Some Mock.alice)]) in
  profile s = JsVal {[ "displayName" := FString "Carl" ]} /\
  authLoading s = false.
Proof.
  split; [done|].
  pose proof (identity_present_settles [] Mock.alice
                (Mock.documents Mock.fresh)) as H.
  destruct H as (_ & _ & _ & _ & Hl & Hp); [done|].
  split; [exact Hp|exact Hl].
Defined.

(** ** The invariant over all transitions *)

Lemma awaited_settled t s : effectUser s = user s -> awaited t s = s.
Proof. intros H. destruct t; [by apply commit_settled|done]. Qed.



(** C8, as stated, fails: when the identity stream takes the identity of a
    session with a loaded profile away, React first renders, and the
    provider publishes, the state with no identity and the profile still
    there; the profile effect resets it only after that render. *)
Lemma cleared_identity_rendered_with_profile :
  let carl : DocumentData := {[ "displayName" := FString "Carl" ]} in
  let m := runActions Mock.backend (boot Mock.fresh)
             [Deliver (AuthStateChanged (Some Mock.alice));
              Deliver (DocSnapshot (Some carl));
              Deliver (AuthStateChanged None)] in
  let f := mkSession None (JsVal carl) false None (Some Mock.alice)
                     (Some "users/u1") in
  f ∈ frames m /\
  AuthProvider f = Some (CtxValues (mkValues None false (JsVal carl) None)) /\
  ~ (is_Some (present (profile f)) -> is_Some (user f)).
Proof.
  intros carl m f.
  split_and!; [by apply (list_elem_of_lookup_2 _ 4)|reflexivity|].
  intros H. assert (Hu : is_Some (user f)) by (apply H; by exists carl).
  by destruct Hu.
Qed.

(** C8 (amended): in every state React renders for a mounted session,
    through stream events and the three operations, against any backend and
    with any timing, a profile document is held only while an identity is,
    provided the profile effect has run for the identity the state shows;
    that is so in the state React settles in after every transition.  (In
    the one render between the clearing of an identity and the effect, the
    old profile is still shown.) *)
Theorem profile_only_with_identity_after_effect {W} (fb : Backend W) (w : W)
    (acts : list Action) (f : Session) :
  let m := runActions fb (boot w) acts in
  f ∈ frames m -> effectUser f = user f ->
  is_Some (present (profile f)) -> is_Some (user f).
Proof.
  intros m Hf He [d Hd].
  destruct (reachable_Good fb w acts) as [_ Hfr]. fold m in Hfr.
  rewrite Forall_forall in Hfr. destruct (Hfr f Hf) as [_ Hp].
  destruct (user f) eqn:Hu; [done|]. rewrite He in Hp.
  rewrite (Hp eq_refl) in Hd. done.
Qed.

Lemma profile_only_with_identity_after_effect_witness :
  let m := runActions Mock.backend (boot Mock.fresh)
             [Login "a@x.com" "secret"; Deliver (DocSnapshot (Some ∅))] in
  let f := session m in
  f ∈ frames m /\ effectUser f = user f /\
  is_Some (present (profile f)) /\ is_Some (user f).
Proof.
  intros m f.
  assert (Hf : f ∈ frames m).
  { apply (list_elem_of_lookup_2 _ 4). reflexivity. }
  assert (He : effectUser f = user f) by reflexivity.
  assert (H : is_Some (present (profile f))) by (by exists ∅).
  split_and!; [exact Hf|exact He|exact H|].
  exact (profile_only_with_identity_after_effect Mock.backend Mock.fresh
           _ f Hf He H).
Defined.

(** C10: when the error callback of the open document listener fires, in any
    state a mounted session has reached, the error list becomes the failure's
    message followed by the hint, and the identity, the profile document and
    the loading flag stay as they were. *)
Theorem listener_error_changes_errors_only {W} (fb : Backend W) (w : W)
    (acts : list Action) (err : JsError) (path : string) :
  let s := session (runActions fb (boot w) acts) in
  docListener s = Some path ->
  let s' := step s (DocError err) in
  authErrorMessages s' = Some [message err; LISTENER_HINT] /\
  user s' = user s /\ profile s' = profile s /\
  authLoading s' = authLoading s /\ docListener s' = docListener s.
Proof.
  intros s Hl s'. pose proof (reachable_Settled fb w acts) as Hs.
  fold s in Hs. unfold s', step. simpl. rewrite Hl.
  rewrite commit_settled by (by destruct Hs). done.
Qed.

Lemma listener_error_changes_errors_only_witness :
  let s := session (runActions Mock.backend (boot Mock.fresh)
                      [Login "a@x.com" "secret";
                       Deliver (DocSnapshot (Some ∅))]) in
  let s' := step s (DocError (ErrorObject "permission-denied")) in
  docListener s = Some "users/u1" /\
  profile s' = JsVal ∅ /\
  authErrorMessages s' = Some ["permission-denied"; LISTENER_HINT].
Proof.
  intros s s'.
  assert (H : docListener s = Some "users/u1") by reflexivity.
  destruct (listener_error_changes_errors_only Mock.backend Mock.fresh _
              (ErrorObject "permission-denied") _ H) as (He & _ & Hp & _).
  split; [exact H|]. split; [|exact He].
  fold s s' in Hp. rewrite Hp. reflexivity.
Defined.

(** ** Handled failures and the error list *)







(** ** The three operations *)

Section OperationContracts.
Context {W : Type} (fb : Backend W).

(** C3: register makes the identity-creation call first.  If it fails, the
    message and the identity-provider hint are recorded, the result is
    false and no other call is made (nothing is written to the document
    store).  If it succeeds, the document
    [{uid, email, displayName, dateCreated}] is written at [users/<new id>],
    with the empty string for an absent display name and the server
    timestamp sentinel for [dateCreated]; the result is true if the write
    succeeds; if it fails, the message and the document-store hint are
    recorded and the result is false, the backend being left as the created
    identity and the failed write left it.  The identity held by the
    session is not touched. *)
Theorem register_two_phase (email password : string)
    (displayName : option string) (m : Machine W) :
  let '(ok, m') := run (registerFunction fb email password displayName) m in
  user (session m') = user (session m) /\
  match createUserWithEmailAndPassword fb email password (world m) with
  | (inl ex, w) =>
      ok = false /\
      authErrorMessages (session m') = Some [message ex; IDENTITY_HINT] /\
      (calls m').*1 =
        (calls m).*1 ++ [CreateUserWithEmailAndPassword email password] /\
      world m' = w
  | (inr userCredential, w) =>
      let id := uid (cred_user userCredential) in
      let path := "users/" +:+ id in
      let data : DocumentData :=
        list_to_map [("uid", FString id);
                     ("email", FString email);
                     ("displayName", FString (default "" displayName));
                     ("dateCreated", FServerTimestamp)] in
      (calls m').*1 =
        (calls m).*1 ++ [CreateUserWithEmailAndPassword email password;
                         SetDoc path data] /\
      match setDoc fb path data w with
      | (inr _, w') => ok = true /\ world m' = w'
      | (inl ex, w') =>
          ok = false /\
          authErrorMessages (session m') = Some [message ex; STORE_HINT] /\
          world m' = w'
      end
  end.
Proof.
  rewrite run_registerFunction. simpl.
  destruct (createUserWithEmailAndPassword _ _ _ _) as [[ex|cred] w]; simpl.
  - rewrite commit_user, fmap_app. done.
  - change (docPath "users" (uid (cred_user cred)))
      with ("users/" +:+ uid (cred_user cred)).
    change (userDocData (cred_user cred) email (default "" displayName))
      with (list_to_map (M := DocumentData)
              [("uid", FString (uid (cred_user cred)));
               ("email", FString email);
               ("displayName", FString (default "" displayName));
               ("dateCreated", FServerTimestamp)]).
    destruct (setDoc _ _ _ _) as [[ex|[]] w']; simpl;
      rewrite commit_user, !fmap_app, <- app_assoc; done.
Qed.


(** C4: login, called in any reachable state and with any timing of the
    sign-in, makes the one call; if the sign-in succeeds it returns true and
    the session holds the identity the sign-in returned; if it fails it
    returns false, the error list is the error's message alone ([ex.message]
    when that is an own property of the error, [JSON.stringify(ex)]
    otherwise) and the identity is the one held before.  The state so
    described is the last one React has rendered when login is over. *)
Theorem login_outcome (w : W) (acts : list Action) (t : Timing)
    (email password : string) :
  let m := runActions fb (boot w) acts in
  let '(ok, m') := run (loginFunctionAt fb t email password) m in
  (calls m').*1 = (calls m).*1 ++ [SignInWithEmailAndPassword email password]
  /\
  last (frames m') = Some (session m') /\
  match signInWithEmailAndPassword fb email password (world m) with
  | (inr userCredential, _) =>
      ok = true /\ user (session m') = Some (cred_user userCredential)
  | (inl ex, _) =>
      ok = false /\
      authErrorMessages (session m') =
        Some [if hasOwnMessage ex then message ex else stringify ex] /\
      user (session m') = user (session m)
  end.
Proof.
  intros m. pose proof (run_last (loginFunctionAt fb t email password) m) as Hl.
  pose proof (settled_effect _ (reachable_Settled fb w acts)) as He.
  fold m in He. rewrite run_loginFunctionAt in *. simpl in *.
  rewrite (awaited_settled t _ He) in *.
  destruct (signInWithEmailAndPassword _ _ _ _) as [[ex|cred] w']; simpl in *;
    rewrite ?commit_user, fmap_app; split_and!; try done.
  by rewrite commit_settled.
Qed.



End OperationContracts.

(** Scenario 1 of the specification on the mock backend. *)
Example login_bad_password :
  let m := boot Mock.fresh in
  let '(ok, m') := run (loginFunction Mock.backend "a@x.com" "bad") m in
  ok = false /\ errorMessages (session m') = ["invalid password"] /\
  user (session m') = user (session m).
Proof. by vm_compute. Qed.

(** Scenario 2 of the specification, at the backend: with a store that is
    not provisioned the account exists afterwards and no document does. *)
Example register_write_fails :
  let '(ok, m') :=
    run (registerFunction Mock.backend "b@x.com" "pw" (Some "Bob"))
        (boot Mock.unprovisioned) in
  ok = false /\
  Mock.accounts (world m') !! "b@x.com"
    = Some ("pw", mkUser "uid-b@x.com" "b@x.com") /\
  Mock.documents (world m') !! "users/uid-b@x.com" = None /\
  errorMessages (session m')
    = ["Missing or insufficient permissions."; STORE_HINT].
Proof. by vm_compute. Qed.

(** With a working store the server has put its own time in place of the
    sentinel. *)
Example register_succeeds :
  let '(ok, m') :=
    run (registerFunction Mock.backend "b@x.com" "pw" None)
        (boot Mock.fresh) in
  ok = true /\
  Mock.documents (world m') !! "users/uid-b@x.com"
    = Some (list_to_map [("uid", FString "uid-b@x.com");
                         ("email", FString "b@x.com");
                         ("displayName", FString "");
                         ("dateCreated", FTimestamp 1700000000)]).
Proof. by vm_compute. Qed.

(** A failing sign-out after a completed login. *)
Example logout_offline :
  let m := runActions Mock.backend (boot Mock.offline)
             [Login "a@x.com" "secret"; Deliver (DocSnapshot (Some ∅))] in
  let '(ok, m') := run (logoutFunction Mock.backend) m in
  ok = false /\ user (session m') = None /\ profile (session m') = JsNull /\
  errorMessages (session m') = ["{}"].
Proof. by vm_compute. Qed.

(** ** The hook *)

(** C2: called with no enclosing provider, the hook does not throw; it
    returns the context's default value, the empty object. *)
Theorem useAuthContext_outside_provider :
  useAuthContext [] = inr CtxEmptyObject.
Proof. reflexivity. Qed.

(** The hook throws only under a provider whose value is [undefined], which
    [AuthProvider] never is. *)
Lemma useAuthContext_throws (enclosing : list ContextValue) (msg : string) :
  useAuthContext enclosing = inl msg <->
  head enclosing = Some CtxUndefined /\
  msg = "useAuthContext was used outside of its Provider".
Proof.
  unfold useAuthContext, useContext.
  destruct enclosing as [|[| |v] rest]; simpl; split;
    try (intros [? ?]; congruence); try congruence.
  intros [= <-]. done.
Qed.

Lemma AuthProvider_never_undefined (s : Session) :
  AuthProvider s <> Some CtxUndefined.
Proof. unfold AuthProvider. by destruct (authLoading s). Qed.

(** ** The client context *)

(** C9, as stated, fails for a configuration without the key [projectId]:
    the client library refuses it when the module creates its handles,
    before any component is rendered, so that no diagnostic is written and
    the exception is raised. *)
Lemma absent_project_id_is_fatal :
  let cfg := mkConfig {[ "apiKey" := JsonString "k" ]} in
  projectId cfg = None /\
  startClient Sdk.library cfg
    = inl "projectId not provided in firebase.initializeApp.".
Proof. split; reflexivity. Qed.

(** C9 (amended): for a configuration whose project id is absent, [null],
    empty or the placeholder, and any client library: if the three calls
    that create the handles return, every render of the provider writes the
    diagnostic, the check raises nothing, and mounting ends with the three
    handles published; if one of the calls throws, loading the module fails
    with that error and the provider is not rendered. *)
Theorem invalid_configuration_is_not_fatal (lib : ClientLibrary)
    (cfg : FirebaseConfig) :
  projectId cfg = None \/ projectId cfg = Some "" \/
  projectId cfg = Some PLACEHOLDER_PROJECT ->
  match importModule lib cfg with
  | inr handles =>
      exists renders,
        startClient lib cfg = inr renders /\
        Forall (fun r => diagnostics r =
          ["Invalid Firebase configuration in src/providers/FirebaseConfig.json"])
          renders /\
        output <$> last renders = Some (Some handles) /\
        handles = mkHandles (initializeApp cfg) (getAuth (initializeApp cfg))
                            (getFirestore (initializeApp cfg))
  | inl thrown => startClient lib cfg = inl thrown
  end.
Proof.
  intros H. unfold startClient.
  assert (Hh : forall h, importModule lib cfg = inr h ->
            h = mkHandles (initializeApp cfg) (getAuth (initializeApp cfg))
                          (getFirestore (initializeApp cfg))).
  { unfold importModule. intros h.
    destruct (initializeAppThrows lib cfg); [done|].
    destruct (getFirestoreThrows lib _); [done|].
    destruct (getAuthThrows lib _); [done|]. by intros [= <-]. }
  destruct (importModule lib cfg) as [thrown|handles] eqn:Hi; [done|].
  rewrite (Hh handles eq_refl). eexists. split; [reflexivity|].
  split_and!; [|reflexivity|reflexivity].
  assert (Hd : invalidConfiguration cfg = true).
  { unfold invalidConfiguration. by destruct H as [->| [->| ->]]. }
  unfold mountFirebaseProvider, FirebaseProvider. rewrite Hd.
  by repeat constructor.
Qed.

Lemma invalid_configuration_is_not_fatal_witness :
  let cfg := mkConfig {[ "projectId" := JsonString "memers-29baa";
                         "apiKey" := JsonString "k" ]} in
  (projectId cfg = None \/ projectId cfg = Some "" \/
   projectId cfg = Some PLACEHOLDER_PROJECT) /\
  exists renders,
    startClient Sdk.library cfg = inr renders /\
    Forall (fun r => diagnostics r =
      ["Invalid Firebase configuration in src/providers/FirebaseConfig.json"])
      renders.
Proof.
  intros cfg.
  assert (H : projectId cfg = None \/ projectId cfg = Some "" \/
              projectId cfg = Some PLACEHOLDER_PROJECT)
    by (right; right; reflexivity).
  split; [exact H|].
  pose proof (invalid_configuration_is_not_fatal Sdk.library cfg H) as Ht.
  change (importModule Sdk.library cfg)
    with (inr (A := string)
            (mkHandles (initializeApp cfg) (getAuth (initializeApp cfg))
                       (getFirestore (initializeApp cfg)))) in Ht.
  destruct Ht as (renders & Hs & Hd & _). by exists renders.
Defined.

(** ** Transitions of a settled session *)

Lemma Settled_step_none s :
  Settled s ->
  step s (AuthStateChanged None) =
    if signedIn s then signedOut else setAuthLoading false s.
Proof.
  intros [He Hl Hp].
  unfold step, commit, profileEffect, signedIn, signedOut.
  destruct s as [[u|] p l e eu dl]; simpl in *; by subst.
Qed.

Lemma Settled_step_some s u :
  Settled s ->
  step s (AuthStateChanged (Some u)) =
    mkSession (Some u) (profile s) false (authErrorMessages s) (Some u)
              (if decide (uid u = "") then None
               else Some ("users/" +:+ uid u)).
Proof.
  intros [He Hl Hp]. unfold step, commit, profileEffect. simpl.
  case_decide as Hu; simpl.
  - rewrite He in Hu. rewrite Hu in Hl. simpl in Hl.
    destruct s as [? p l e eu dl]; simpl in *; by subst.
  - by case_decide.
Qed.





(** ** The stream handlers on reachable states *)

Section Reachable.
Context {W : Type} (fb : Backend W) (w : W) (acts : list Action).

Let s : Session := session (runActions fb (boot w) acts).

(** X1: in every state React renders, the open document listener is the
    one for the identity the profile effect last ran with: on [users/<id>]
    for an identity with a non-empty id, and none otherwise.  In the state
    React settles in after a transition that identity is the one the
    session holds; in the render between a change of identity and the
    effect it is still the one held before. *)
Theorem listener_follows_identity (f : Session) :
  f ∈ frames (runActions fb (boot w) acts) ->
  docListener f =
    match effectUser f with
    | Some u => if decide (uid u = "") then None
                else Some ("users/" +:+ uid u)
    | None => None
    end /\
  docListener s =
    match user s with
    | Some u => if decide (uid u = "") then None
                else Some ("users/" +:+ uid u)
    | None => None
    end.
Proof.
  intros Hf. split.
  - destruct (reachable_Good fb w acts) as [_ Hfr].
    rewrite Forall_forall in Hfr. destruct (Hfr f Hf) as [Hl _].
    rewrite Hl. by destruct (effectUser f).
  - destruct (reachable_Settled fb w acts) as [He Hl Hp]. fold s in Hl.
    rewrite Hl. by destruct (user s).
Qed.

(** X2: an identity event that delivers none, in any reachable state: if
    the session held an identity everything is reset (no profile, no errors,
    no listener, loading again); if it held none, only the loading flag is
    cleared, and recorded errors stay. *)
Theorem identity_event_none :
  step s (AuthStateChanged None) =
    if signedIn s then signedOut else setAuthLoading false s.
Proof. apply Settled_step_none, reachable_Settled. Qed.

(** X3: an identity event that delivers an identity, in any reachable
    state: the identity is stored, loading is over and the listener is moved
    to the new identity's document; the profile and the error list are kept
    as they were, also when they belong to the identity held before. *)
Theorem identity_event_some (u : User) :
  step s (AuthStateChanged (Some u)) =
    mkSession (Some u) (profile s) false (authErrorMessages s) (Some u)
              (if decide (uid u = "") then None
               else Some ("users/" +:+ uid u)).
Proof. apply Settled_step_some, reachable_Settled. Qed.

(** X4: without an identity, document events do nothing: a snapshot or an
    error that arrives after the identity is gone cannot bring a profile or
    an error message back. *)
Theorem document_events_need_identity (e : Event) :
  user s = None -> isAuthEvent e = false -> step s e = s.
Proof.
  intros Hu He. destruct (reachable_Settled fb w acts) as [Hs Hl Hp].
  fold s in Hs, Hl, Hp. rewrite Hu in Hl. simpl in Hl.
  unfold step. destruct e as [?|data|err]; [done|..]; simpl; rewrite Hl;
    by apply commit_settled.
Qed.

(** X5: a snapshot that carries a document, through an open listener: the
    document becomes the profile and nothing else changes; in particular the
    error list is not cleared, so a message about a missing document stays
    after the document has appeared. *)
Theorem snapshot_with_document (path : string) (fields : DocumentData) :
  docListener s = Some path ->
  step s (DocSnapshot (Some fields)) = setProfile (JsVal fields) s.
Proof.
  intros Hd. pose proof (reachable_Settled fb w acts) as Hs. fold s in Hs.
  unfold step. simpl. rewrite Hd. unfold onSnapshotNext.
  apply commit_settled. by destruct Hs.
Qed.

(** X6: a snapshot without a document, through an open listener: the
    profile becomes [undefined], also when one was loaded, and the error
    list is the message that names the watched path. *)
Theorem snapshot_without_document (path : string) :
  docListener s = Some path ->
  step s (DocSnapshot None) =
    mkSession (user s) JsUndefined (authLoading s)
              (Some ["No profile doc found in Firestore at: " +:+ path])
              (effectUser s) (docListener s).
Proof.
  intros Hd. pose proof (reachable_Settled fb w acts) as Hs. fold s in Hs.
  unfold step. simpl. rewrite Hd. unfold onSnapshotNext.
  rewrite commit_settled by (by destruct Hs).
  unfold setProfile, setAuthErrorMessages. cbn [docListener]. by rewrite Hd.
Qed.
End Reachable.

Lemma listener_follows_identity_witness :
  let m := runActions Mock.backend (boot Mock.fresh)
             [Deliver (AuthStateChanged (Some Mock.alice));
              Deliver (AuthStateChanged None)] in
  let f := mkSession None JsNull false None (Some Mock.alice)
                     (Some "users/u1") in
  f ∈ frames m /\ docListener f = Some "users/u1" /\
  docListener (session m) = None.
Proof.
  intros m f.
  assert (Hf : f ∈ frames m) by (by apply (list_elem_of_lookup_2 _ 3)).
  split; [exact Hf|].
  exact (listener_follows_identity Mock.backend Mock.fresh _ f Hf).
Defined.

Lemma document_events_need_identity_witness :
  let s := session (runActions Mock.backend (boot Mock.fresh)
                      [Login "a@x.com" "secret"; Logout]) in
  let e := DocSnapshot (Some {[ "displayName" := FString "Carl" ]}) in
  user s = None /\ isAuthEvent e = false /\ step s e = s.
Proof.
  intros s e.
  assert (Hu : user s = None) by reflexivity.
  assert (He : isAuthEvent e = false) by reflexivity.
  split; [exact Hu|]. split; [exact He|].
  exact (document_events_need_identity Mock.backend Mock.fresh _ e Hu He).
Defined.

Lemma snapshot_with_document_witness :
  let s := session (runActions Mock.backend (boot Mock.fresh)
                      [Login "a@x.com" "secret"; Deliver (DocSnapshot None)]) in
  let s' := step s (DocSnapshot (Some ∅)) in
  docListener s = Some "users/u1" /\
  profile s' = JsVal ∅ /\
  authErrorMessages s' = authErrorMessages s /\
  authErrorMessages s =
    Some ["No profile doc found in Firestore at: users/u1"].
Proof.
  intros s s'.
  assert (Hd : docListener s = Some "users/u1") by reflexivity.
  pose proof (snapshot_with_document Mock.backend Mock.fresh _ _ ∅ Hd) as H.
  cbv zeta in H. fold s in H. fold s' in H.
  split; [exact Hd|]. rewrite H. split_and!; reflexivity.
Defined.

Lemma snapshot_without_document_witness :
  let s := session (runActions Mock.backend (boot Mock.fresh)
                      [Login "a@x.com" "secret";
                       Deliver (DocSnapshot (Some ∅))]) in
  let s' := step s (DocSnapshot None) in
  docListener s = Some "users/u1" /\
  profile s = JsVal ∅ /\ profile s' = JsUndefined.
Proof.
  intros s s'.
  assert (Hd : docListener s = Some "users/u1") by reflexivity.
  pose proof (snapshot_without_document Mock.backend Mock.fresh _ _ Hd) as H.
  cbv zeta in H. fold s in H. fold s' in H.
  split; [exact Hd|]. rewrite H. split; reflexivity.
Defined.

(** ** What the operations leave of the session *)

Section Frames.
Context {W : Type} (fb : Backend W) (w : W) (acts : list Action).

Let m : Machine W := runActions fb (boot w) acts.

Lemma reachable_commit : commit (session m) = session m.
Proof. apply commit_settled. by destruct (reachable_Settled fb w acts). Qed.

(** X7: login, in any reachable state.  On success only the identity and
    the listener change: the profile, the loading flag and the error list
    are the ones from before, so an earlier failure's message is still there
    after a login that worked.  On failure only the error list changes. *)
Theorem login_frame (email password : string) :
  let s := session m in
  let s' := session (act fb m (Login email password)) in
  match signInWithEmailAndPassword fb email password (world m) with
  | (inr userCredential, _) =>
      let u := cred_user userCredential in
      s' = mkSession (Some u) (profile s) (authLoading s)
                     (authErrorMessages s) (Some u)
                     (if decide (uid u = "") then None
                      else Some ("users/" +:+ uid u))
  | (inl ex, _) => s' = setAuthErrorMessages (Some [errorText ex]) s
  end.
Proof.
  simpl. rewrite run_loginFunction. simpl. rewrite reachable_commit.
  destruct (signInWithEmailAndPassword _ _ _ _) as [[ex|cred] w']; simpl;
    [done|].
  destruct (reachable_Settled fb w acts) as [He Hl Hp].
  fold m in He, Hl, Hp. unfold commit, profileEffect. simpl.
  case_decide as Hu; simpl.
  - rewrite He in Hu. rewrite Hu in Hl. simpl in Hl.
    destruct (session m) as [? p l e eu dl]; simpl in *; by subst.
  - by case_decide.
Qed.

(** X8: register, in any reachable state, never touches the identity, the
    profile, the loading flag or the listener: when it succeeds the session
    is exactly as before (the new account is not stored as the identity),
    and when either phase fails only the error list changes. *)
Theorem register_frame (email password : string)
    (displayName : option string) :
  let s := session m in
  let s' := session (act fb m (Register email password displayName)) in
  match createUserWithEmailAndPassword fb email password (world m) with
  | (inl ex, _) =>
      s' = setAuthErrorMessages (Some [message ex; IDENTITY_HINT]) s
  | (inr userCredential, w1) =>
      let u := cred_user userCredential in
      match setDoc fb ("users/" +:+ uid u)
                   (userDocData u email (default "" displayName)) w1 with
      | (inr _, _) => s' = s
      | (inl ex, _) =>
          s' = setAuthErrorMessages (Some [message ex; STORE_HINT]) s
      end
  end.
Proof.
  simpl. rewrite run_registerFunction. simpl. rewrite reachable_commit.
  destruct (createUserWithEmailAndPassword _ _ _ _) as [[ex|cred] w1]; simpl;
    [done|].
  change (docPath "users" (uid (cred_user cred)))
    with ("users/" +:+ uid (cred_user cred)).
  by destruct (setDoc _ _ _ _) as [[ex|[]] w2].
Qed.




(** X20: for login and for register the timing of the remote calls makes no
    difference in a reachable state: whether each promise settles before or
    after React renders, the result, the session React settles in, the
    backend and the calls made (with what the cells showed and had queued
    at each call) are the same.  No update is queued when they await; only
    logout awaits with one. *)
Theorem timing_matters_only_for_logout (t1 t2 : Timing)
    (email password : string) (displayName : option string) :
  let same (a b : bool * Machine W) :=
    a.1 = b.1 /\ session a.2 = session b.2 /\ world a.2 = world b.2 /\
    calls a.2 = calls b.2 in
  same (run (loginFunctionAt fb t1 email password) m)
       (run (loginFunction fb email password) m) /\
  same (run (registerFunctionAt fb t1 t2 email password displayName) m)
       (run (registerFunction fb email password displayName) m).
Proof.
  pose proof (settled_effect _ (reachable_Settled fb w acts)) as He.
  pose proof (reachable_last fb w acts) as Hl. fold m in He, Hl.
  assert (Ha : forall t, awaited t (session m) = session m)
    by (intros; by apply awaited_settled).
  assert (Hd : forall t, default mounted
                 (last (frames m ++ awaitFrames t (session m))) = session m).
  { intros [|]; simpl.
    - by rewrite last_commitFrames, commit_settled.
    - by rewrite app_nil_r, Hl. }
  cbv zeta. unfold loginFunction, registerFunction.
  rewrite !run_loginFunctionAt, !run_registerFunctionAt. cbv zeta.
  rewrite !Ha, !Hd. split.
  - by destruct (signInWithEmailAndPassword _ _ _ _) as [[ex|cred] w'].
  - destruct (createUserWithEmailAndPassword _ _ _ _) as [[ex|cred] w'];
      [done|].
    by destruct (setDoc _ _ _ _) as [[ex|[]] w''].
Qed.
End Frames.


(** ** Loading and rendering under stream events *)

Lemma step_loading s e :
  Settled s -> (authLoading s = true -> s = signedOut) ->
  authLoading (step s e) = true -> step s e = signedOut.
Proof.
  intros [He Hl Hp] Hload. unfold step.
  destruct e as [u|data|err]; simpl.
  - unfold commit, profileEffect, signedOut.
    destruct s as [us p l er eu dl]; simpl in *; subst.
    case_decide as Hu; simpl; [done|].
    destruct u as [u|]; simpl; [by case_decide|done].
  - destruct (docListener s) as [path|] eqn:Hd.
    + rewrite commit_settled by (by destruct data).
      intros Hlo.
      assert (Hso : s = signedOut) by (by destruct data; apply Hload).
      rewrite Hso in Hd. done.
    + by rewrite commit_settled.
  - destruct (docListener s) as [path|] eqn:Hd.
    + rewrite commit_settled by done.
      intros Hlo. rewrite (Hload Hlo) in Hd. done.
    + by rewrite commit_settled.
Qed.

(** X12: under stream events alone a session is loading only in the state it
    mounts in: whenever [authLoading] is true there is no identity, no
    profile, no error and no listener, and whenever an identity is held the
    provider renders its children. *)
Theorem loading_only_when_signed_out (evs : list Event) :
  let s := runEvents mounted evs in
  authLoading s = true -> s = mounted.
Proof.
  simpl. change mounted with signedOut.
  assert (H : forall s0, Settled s0 ->
                (authLoading s0 = true -> s0 = signedOut) ->
                authLoading (runEvents s0 evs) = true ->
                runEvents s0 evs = signedOut).
  { induction evs as [|e evs IH]; intros s0 Hs Hl; simpl; [done|].
    apply IH; [by apply step_Settled|by apply step_loading]. }
  apply H; [apply mounted_Settled|done].
Qed.

Lemma loading_only_when_signed_out_witness :
  let evs := [AuthStateChanged (Some Mock.alice); DocSnapshot (Some ∅);
              AuthStateChanged None] in
  authLoading (runEvents mounted evs) = true /\ runEvents mounted evs = mounted.
Proof.
  intros evs.
  assert (H : authLoading (runEvents mounted evs) = true) by reflexivity.
  split; [exact H|]. exact (loading_only_when_signed_out evs H).
Defined.

(** X13: until the identity stream delivers its first event nothing else moves
    the session: it stays as mounted, and the provider renders nothing. *)
Theorem nothing_before_first_identity_event (evs : list Event) :
  Forall (fun e => isAuthEvent e = false) evs ->
  runEvents mounted evs = mounted /\
  AuthProvider (runEvents mounted evs) = None.
Proof.
  intros H.
  assert (Hm : runEvents mounted evs = mounted).
  { induction H as [|e evs He _ IH]; simpl; [done|].
    assert (Hs : step mounted e = mounted) by (by destruct e).
    by rewrite Hs. }
  by rewrite Hm.
Qed.

Lemma nothing_before_first_identity_event_witness :
  let evs := [DocSnapshot (Some ∅); DocError (ErrorObject "unavailable");
              DocSnapshot None] in
  Forall (fun e => isAuthEvent e = false) evs /\
  runEvents mounted evs = mounted.
Proof.
  intros evs.
  assert (H : Forall (fun e => isAuthEvent e = false) evs)
    by (repeat constructor).
  split; [exact H|].
  exact (proj1 (nothing_before_first_identity_event evs H)).
Defined.

(** ** The error list *)

Lemma commit_errors s :
  authErrorMessages (commit s) = authErrorMessages s \/
  authErrorMessages (commit s) = None.
Proof.
  unfold commit, profileEffect. case_decide; [by left|].
  destruct s as [[u|] p l e eu dl]; simpl; [case_decide; by left|by right].
Qed.

(** X14: the error list is never an empty array: in every reachable state
    [authErrorMessages] is [undefined] or holds one or two messages, so that
    a consumer may test the cell itself to know whether there is an error. *)
Theorem error_list_never_empty {W} (fb : Backend W) (w : W)
    (acts : list Action) :
  match authErrorMessages (session (runActions fb (boot w) acts)) with
  | None => True
  | Some l => 1 <= length l <= 2
  end.
Proof.
  set (ok := fun s : Session =>
               match authErrorMessages s with
               | None => True
               | Some l => 1 <= length l <= 2
               end).
  assert (Hc : forall s, ok s -> ok (commit s)).
  { intros s H. unfold ok. by destruct (commit_errors s) as [-> | ->]. }
  assert (Hset : forall l s, 1 <= length l <= 2 ->
                             ok (setAuthErrorMessages (Some l) s)) by done.
  assert (Hu : forall u s, ok s -> ok (setUser u s)) by done.
  change (ok (session (runActions fb (boot w) acts))).
  induction acts as [|a acts IH] using rev_ind; [done|].
  rewrite runActions_snoc. set (m := runActions fb (boot w) acts) in *.
  destruct a as [e|email password| |email password displayName|]; simpl.
  5: { rewrite run_logoutFunctionAt. simpl.
       destruct (signOut _ _) as [[ex|[]] w']; simpl; apply Hc;
         [apply Hset; simpl; lia|by apply Hu]. }
  - apply Hc. unfold ok in *.
    destruct e as [u|[d|]|err]; simpl; try exact IH;
      destruct (docListener (session m)); simpl; try exact IH; lia.
  - rewrite run_loginFunction. simpl.
    destruct (signInWithEmailAndPassword _ _ _ _) as [[ex|cred] w']; simpl.
    + apply Hset. simpl. lia.
    + by apply Hc, Hu, Hc.
  - rewrite run_logoutFunction. simpl.
    destruct (signOut _ _) as [[ex|[]] w']; simpl.
    + apply Hset. simpl. lia.
    + by apply Hc, Hu.
  - rewrite run_registerFunction. simpl.
    destruct (createUserWithEmailAndPassword _ _ _ _) as [[ex|cred] w'];
      simpl; [apply Hset; simpl; lia|].
    destruct (setDoc _ _ _ _) as [[ex|[]] w'']; simpl;
      [apply Hset; simpl; lia|by apply Hc].
Qed.

(** ** Register and the profile effect agree on the document *)

(** X15: the document register writes for a new identity is the one the profile
    effect listens to once the identity stream delivers that identity: both
    use [users/<uid>], and the document stores the same [uid]. *)
Theorem register_writes_where_profile_listens {W} (fb : Backend W) (w : W)
    (acts : list Action) (email password : string)
    (displayName : option string) (cred : UserCredential) (w1 : W) :
  let m := runActions fb (boot w) acts in
  let m' := act fb m (Register email password displayName) in
  let u := cred_user cred in
  createUserWithEmailAndPassword fb email password (world m) = (inr cred, w1) ->
  uid u <> "" ->
  exists path data,
    last (calls m').*1 = Some (SetDoc path data) /\
    data !! "uid" = Some (FString (uid u)) /\
    dom data = {[ "uid"; "email"; "displayName"; "dateCreated" ]} /\
    docListener (step (session m') (AuthStateChanged (Some u))) = Some path.
Proof.
  intros m m' u Hc Hid.
  exists ("users/" +:+ uid u), (userDocData u email (default "" displayName)).
  split_and!.
  - unfold m'. simpl. rewrite run_registerFunction. simpl. rewrite Hc.
    simpl. destruct (setDoc _ _ _ _) as [[ex|[]] w2]; simpl;
      rewrite fmap_app; simpl; by rewrite last_snoc.
  - unfold userDocData. by rewrite lookup_insert_eq.
  - unfold userDocData. rewrite !dom_insert_L, dom_empty_L. set_solver.
  - rewrite Settled_step_some by apply act_Settled, reachable_Settled.
    simpl. by rewrite decide_False.
Qed.

Lemma register_writes_where_profile_listens_witness :
  let m' := act Mock.backend (boot Mock.fresh) (Register "b@x.com" "pw" None) in
  let u := mkUser "uid-b@x.com" "b@x.com" in
  uid u <> "" /\
  exists path data,
    last (calls m').*1 = Some (SetDoc path data) /\
    data !! "uid" = Some (FString (uid u)) /\
    dom data = {[ "uid"; "email"; "displayName"; "dateCreated" ]} /\
    docListener (step (session m') (AuthStateChanged (Some u))) = Some path.
Proof.
  intros m' u.
  assert (Hid : uid u <> "") by done.
  split; [exact Hid|].
  exact (register_writes_where_profile_listens Mock.backend Mock.fresh []
           "b@x.com" "pw" None (mkCredential u)
           (snd (Mock.createUser "b@x.com" "pw" Mock.fresh)) eq_refl Hid).
Defined.

(** ** What consumers of the session context read *)

(** X16: a consumer under [AuthProvider] reads the session as it is, and never
    with [authLoading] true: while the session is loading the provider
    renders nothing, and otherwise the hook returns the four cells of the
    session, with no exception, whatever providers lie further out. *)
Theorem consumers_read_the_session (s : Session)
    (outer : list ContextValue) :
  match AuthProvider s with
  | None => authLoading s = true
  | Some v =>
      authLoading s = false /\
      useAuthContext (v :: outer) =
        inr (CtxValues (mkValues (authErrorMessages s) false (profile s)
                                 (user s)))
  end.
Proof.
  unfold AuthProvider. destruct (authLoading s) eqn:Hl; by rewrite ?Hl.
Qed.

(** ** The configuration check *)

Lemma prefix_spec (p s : string) :
  String.prefix p s = true <-> exists rest, s = p +:+ rest.
Proof.
  revert s. induction p as [|a p IH]; intros [|b s]; simpl.
  - split; [by exists ""|done].
  - split; [by exists (String b s)|done].
  - split; [done|by intros [? ?]].
  - destruct (Ascii.ascii_dec a b) as [->|Hne].
    + rewrite IH. split.
      * intros [rest ->]. by exists rest.
      * intros [rest H]. simpl in H. injection H as ->. by exists rest.
    + split; [done|]. intros [rest H]. simpl in H. injection H as ? _. done.
Qed.

Lemma includes_spec (s t : string) :
  includes s t = true <-> exists before after, s = before +:+ t +:+ after.
Proof.
  induction s as [|a s IH].
  - unfold includes. destruct (String.prefix t "") eqn:Hp.
    + split; [intros _|done]. apply prefix_spec in Hp as [rest Hp].
      exists "", rest. exact Hp.
    + split; [done|]. intros (before & after & H).
      destruct before as [|b before]; [|discriminate H].
      assert (Ht : String.prefix t "" = true)
        by (apply prefix_spec; exists after; exact H).
      congruence.
  - change (includes (String a s) t)
      with (if String.prefix t (String a s) then true else includes s t).
    destruct (String.prefix t (String a s)) eqn:Hp.
    + split; [intros _|done]. apply prefix_spec in Hp as [rest Hp].
      exists "", rest. exact Hp.
    + rewrite IH. split.
      * intros (before & after & ->). by exists (String a before), after.
      * intros (before & after & H). destruct before as [|b before].
        { assert (Ht : String.prefix t (String a s) = true)
            by (apply prefix_spec; exists after; exact H).
          congruence. }
        simpl in H. injection H as _ ->. by exists before, after.
Qed.

(** X17: the configuration passes the check, with no diagnostic at any render,
    exactly when it has a project id that is not empty and does not contain
    the placeholder [memers-29baa] anywhere: an id that merely contains the
    placeholder is reported as well. *)
Theorem diagnostic_iff_invalid (cfg : FirebaseConfig)
    (firebaseInitializing : bool) :
  diagnostics (FirebaseProvider cfg firebaseInitializing) = [] <->
  exists id, projectId cfg = Some id /\ id <> "" /\
             ~ exists before after,
                 id = before +:+ "memers-29baa" +:+ after.
Proof.
  unfold FirebaseProvider, invalidConfiguration. simpl.
  destruct (projectId cfg) as [id|].
  - case_decide as He.
    + split; [done|]. intros (id' & [= <-] & Hne & _). done.
    + destruct (includes id PLACEHOLDER_PROJECT) eqn:Hi.
      * split; [done|]. intros (id' & [= <-] & _ & Hn).
        destruct Hn. by apply includes_spec.
      * split; [|done]. intros _. exists id. split_and!; try done.
        intros Hc. apply includes_spec in Hc. unfold PLACEHOLDER_PROJECT in *.
        congruence.
  - split; [done|]. by intros (id & ? & _).
Qed.

(** ** The client provider and the session component under it *)

(** X18: the session component registers its identity listener exactly when the
    nearest client provider publishes handles, and then on that provider's
    auth handle; mounting it never throws under a client provider or under
    none. *)
Theorem auth_listener_needs_client_provider
    (enclosing : list FirebaseContextValue) :
  head enclosing <> Some FbUndefined ->
  exists wr, mountAuthProvider enclosing = inr wr /\
    authListener wr =
      match head enclosing with
      | Some (FbValues v) => Some (myAuth v)
      | _ => None
      end.
Proof.
  intros H. unfold mountAuthProvider, useFirebaseContext.
  destruct enclosing as [|[| |v] rest]; simpl in *; try done; by eexists.
Qed.

Lemma auth_listener_needs_client_provider_witness :
  let cfg := mkConfig {[ "projectId" := JsonString "my-project";
                         "apiKey" := JsonString "k" ]} in
  let v := mkHandles (initializeApp cfg) (getAuth (initializeApp cfg))
                     (getFirestore (initializeApp cfg)) in
  importModule Sdk.library cfg = inr v /\
  head [FbValues v] <> Some FbUndefined /\
  exists wr, mountAuthProvider [FbValues v] = inr wr /\
             authListener wr = Some (getAuth (initializeApp cfg)).
Proof.
  intros cfg v.
  assert (H : head [FbValues v] <> Some FbUndefined) by done.
  split; [reflexivity|]. split; [exact H|].
  exact (auth_listener_needs_client_provider [FbValues v] H).
Defined.

(** X19: mounted outside every client provider, the session component does not
    throw: the hook hands it the empty default object, no identity listener
    is registered, and whatever the streams deliver the session stays as
    mounted and the provider renders nothing. *)
Theorem session_stuck_without_client_provider (evs : list Event) :
  exists wr, mountAuthProvider [] = inr wr /\
    authListener wr = None /\
    runWired wr mounted evs = mounted /\
    AuthProvider (runWired wr mounted evs) = None.
Proof.
  eexists. split; [reflexivity|]. split; [reflexivity|].
  assert (H : runWired (mkWiring None None) mounted evs = mounted).
  { induction evs as [|e evs IH]; simpl; [done|].
    assert (Hs : stepWired (mkWiring None None) mounted e = mounted)
      by (by destruct e).
    by rewrite Hs. }
  simpl. by rewrite H.
Qed.

(** Under a client provider the identity listener is registered and every
    stream event reaches the session: the wired run is the run of the
    events. *)
Lemma session_wired_under_client_provider (cfg : FirebaseConfig)
    (outer : list FirebaseContextValue) (evs : list Event) :
  match last (mountFirebaseProvider cfg) with
  | Some r =>
      match published r with
      | Some v =>
          exists wr, mountAuthProvider (v :: outer) = inr wr /\
            authListener wr = Some (getAuth (initializeApp cfg)) /\
            firestore wr = Some (getFirestore (initializeApp cfg)) /\
            runWired wr mounted evs = runEvents mounted evs
      | None => False
      end
  | None => False
  end.
Proof.
  simpl. eexists. split; [reflexivity|]. split_and!; reflexivity.
Qed.
